(** * devsim.py -- a simple Modbus device simulator

    The script builds one [ModbusSequentialDataBlock], hands it to three
    [ModbusSlaveContext]s (unit ids 1, 2, 3) as all four of their banks,
    wraps them in a [ModbusServerContext] with [single=False], starts a
    daemon thread running [sync] and serves Modbus/TCP.

    The development has three layers:
    - [Py]: the Python built-ins the code relies on (slices, [range],
      [random.randint], exceptions, a state-and-exception monad);
    - [Pymodbus]: the parts of the pymodbus library (imported at
      devsim.py:10-14) that the script calls or that serve a request:
      the datastore (store.py, context.py, interfaces.py), the
      read-register requests (pdu.py, register_read_message.py) and the
      request handler (server/sync.py) with the unit-id check of the
      framer in front of it (framer/__init__.py), each definition next
      to the library code it follows; frames are taken as already
      decoded into requests, the byte-level framing is not modelled;
    - [Devsim]: the script itself ([sync] and the [__main__] block).

    The refresher thread is followed on its own: the states it goes
    through are those its own iterations produce, and serving a read
    request changes nothing in them. *)

From Stdlib Require Import ZArith List Lia QArith.
From stdpp Require Import base gmap list.

Local Open Scope Z_scope.

(* ===================================================================== *)
(** ** Python built-ins *)
(* ===================================================================== *)

Module Py.

(** Exceptions that can be raised along the modelled paths.
    [BadReference] stands for following a reference to an object that is
    not in the heap; Python has no dangling references, so it is never
    raised from a well-formed heap. *)
Inductive exn : Type :=
| NoSuchSlaveException
| KeyError
| ValueError
| StructError
| BadReference.

Inductive result (A : Type) : Type :=
| Ok (a : A)
| Raise (e : exn).
Arguments Ok {A} a.
Arguments Raise {A} e.

(** State-and-exception monad: the state survives a raise, as the
    mutations a Python function made before raising do. *)
Definition M (S A : Type) : Type := S -> result A * S.

Definition ret {S A} (a : A) : M S A := fun s => (Ok a, s).

Definition bind {S A B} (m : M S A) (k : A -> M S B) : M S B :=
  fun s =>
    match m s with
    | (Ok a, s') => k a s'
    | (Raise e, s') => (Raise e, s')
    end.

Notation "'let!' x ':=' m 'in' k" := (bind m (fun x => k))
  (at level 10, x name, m at level 100, k at level 200).

(** [[f(x) for x in xs]] with an effectful [f]. *)
Fixpoint list_comprehension {S A B} (f : A -> M S B) (xs : list A) : M S (list B) :=
  match xs with
  | [] => ret []
  | x :: xs' =>
      let! y := f x in
      let! ys := list_comprehension f xs' in
      ret (y :: ys)
  end.

(** [for x in xs: body(x)]. *)
Fixpoint for_in {S A} (xs : list A) (body : A -> M S unit) : M S unit :=
  match xs with
  | [] => ret tt
  | x :: xs' => let! _ := body x in for_in xs' body
  end.

(** [range(a, b)] and [range(n)]. *)
Definition range2 (a b : Z) : list Z :=
  map (fun k => a + Z.of_nat k) (seq 0 (Z.to_nat (b - a))).

Definition range (n : Z) : list Z := range2 0 n.

(** [len(l)] as a Python int. *)
Definition len {A} (l : list A) : Z := Z.of_nat (length l).

(** Slice indices are normalised as CPython's [PySlice_AdjustIndices]
    does for step 1: a negative index counts from the end, and the
    result is clamped to [0, len]. *)
Definition adjust_index (length i : Z) : Z :=
  if i <? 0 then Z.max 0 (i + length) else Z.min i length.

(** [l[start:stop]]. *)
Definition getslice {A} (l : list A) (start stop : Z) : list A :=
  let lo := adjust_index (len l) start in
  let hi := adjust_index (len l) stop in
  take (Z.to_nat (hi - lo)) (drop (Z.to_nat lo) l).

(** [l[start:stop] = new]: the items in [lo, hi) are replaced by [new],
    whatever its length; when [hi < lo] nothing is removed and [new] is
    inserted at [lo]. *)
Definition setslice {A} (l : list A) (start stop : Z) (new : list A) : list A :=
  let lo := adjust_index (len l) start in
  let hi := Z.max lo (adjust_index (len l) stop) in
  take (Z.to_nat lo) l ++ new ++ drop (Z.to_nat hi) l.

(** The pseudo-random generator is an oracle: an arbitrary stream of raw
    draws and the position of the next one. *)
Record Random : Type := mkRandom { raw : nat -> Z; pos : nat }.

(** [random.seed()] re-seeds from the operating system; the oracle
    stream is arbitrary already, so the state is left as it is. *)
Definition seed (g : Random) : Random := g.

(** [random.randint(a, b)]: an integer N with a <= N <= b; ValueError on
    an empty range. *)
Definition randint (a b : Z) (g : Random) : result Z * Random :=
  if b <? a then (Raise ValueError, g)
  else (Ok (a + raw g (pos g) mod (b - a + 1)),
        {| raw := raw g; pos := S (pos g) |}).

End Py.

(* ===================================================================== *)
(** ** The pymodbus pieces used by the script *)
(* ===================================================================== *)

Module Pymodbus.
Import Py.

(** *** pymodbus.datastore.store *)

(** [ModbusSequentialDataBlock]: a base address and the list of values
    ([self.address], [self.values]). *)
Record ModbusSequentialDataBlock : Type :=
  mkBlock { address : Z; values : list Z }.

(** [validate(address, count)]:
    [self.address <= address and self.address + len(self.values) >= address + count]. *)
Definition block_validate (b : ModbusSequentialDataBlock) (addr count : Z) : bool :=
  (address b <=? addr) && (addr + count <=? address b + len (values b)).

(** [getValues(address, count)]:
    [start = address - self.address; return self.values[start:start + count]]. *)
Definition block_getValues (b : ModbusSequentialDataBlock) (addr count : Z) : list Z :=
  let start := addr - address b in
  getslice (values b) start (start + count).

(** [setValues(address, values)]:
    [start = address - self.address; self.values[start:start + len(values)] = values].
    (A value that is not a list is first wrapped in one; the script
    passes a list.) *)
Definition block_setValues (b : ModbusSequentialDataBlock) (addr : Z) (vs : list Z)
  : ModbusSequentialDataBlock :=
  let start := addr - address b in
  {| address := address b;
     values := setslice (values b) start (start + len vs) vs |}.

(** Objects live in a heap and are referred to by identity, so that one
    block handed to several contexts stays one block. *)
Definition ref : Type := nat.
Abbreviation Heap := (gmap ref ModbusSequentialDataBlock).

Definition deref (h : Heap) (r : ref) : result ModbusSequentialDataBlock :=
  match h !! r with
  | Some b => Ok b
  | None => Raise BadReference
  end.

(** *** pymodbus.interfaces.IModbusSlaveContext *)

(** Keys of a slave context's [store] dictionary: 'd', 'c', 'i', 'h'. *)
Inductive store_key : Type := key_d | key_c | key_i | key_h.

(** [__fx_mapper = {2: 'd', 4: 'i'}], then 'h' for 3, 6, 16, 22, 23 and
    'c' for 1, 5, 15. *)
Definition fx_mapper : gmap Z store_key :=
  list_to_map
    ([(2, key_d); (4, key_i)]
       ++ map (fun i => (i, key_h)) [3; 6; 16; 22; 23]
       ++ map (fun i => (i, key_c)) [1; 5; 15]).

(** [decode(fx)]: [return self.__fx_mapper[fx]]. *)
Definition decode (fx : Z) : result store_key :=
  match fx_mapper !! fx with
  | Some k => Ok k
  | None => Raise KeyError
  end.

(** *** pymodbus.datastore.context *)

(** [ModbusSlaveContext]: the [store] dictionary (references to data
    blocks) and [zero_mode]. *)
Record ModbusSlaveContext : Type :=
  mkSlave { store : store_key -> ref; zero_mode : bool }.

(** [ModbusSlaveContext(di=.., co=.., hr=.., ir=..)]; [zero_mode]
    defaults to [Defaults.ZeroMode = False]. *)
Definition new_ModbusSlaveContext (di co hr ir : ref) : ModbusSlaveContext :=
  {| store := fun k =>
       match k with key_d => di | key_c => co | key_i => ir | key_h => hr end;
     zero_mode := false |}.

(** [if not self.zero_mode: address = address + 1]. *)
Definition shifted (s : ModbusSlaveContext) (addr : Z) : Z :=
  if zero_mode s then addr else addr + 1.

(** The block behind [self.store[self.decode(fx)]]. *)
Definition bank (s : ModbusSlaveContext) (fx : Z) : result ref :=
  match decode fx with
  | Ok k => Ok (store s k)
  | Raise e => Raise e
  end.

(** [validate(fx, address, count)]:
    [[
      if not self.zero_mode: address = address + 1
      return self.store[self.decode(fx)].validate(address, count)
    ]] *)
Definition slave_validate (s : ModbusSlaveContext) (fx addr count : Z) (h : Heap)
  : result bool :=
  match bank s fx with
  | Ok r =>
      match deref h r with
      | Ok b => Ok (block_validate b (shifted s addr) count)
      | Raise e => Raise e
      end
  | Raise e => Raise e
  end.

(** [getValues(fx, address, count)]:
    [[
      if not self.zero_mode: address = address + 1
      return self.store[self.decode(fx)].getValues(address, count)
    ]] *)
Definition slave_getValues (s : ModbusSlaveContext) (fx addr count : Z) (h : Heap)
  : result (list Z) :=
  match bank s fx with
  | Ok r =>
      match deref h r with
      | Ok b => Ok (block_getValues b (shifted s addr) count)
      | Raise e => Raise e
      end
  | Raise e => Raise e
  end.

(** [setValues(fx, address, values)]:
    [[
      if not self.zero_mode: address = address + 1
      self.store[self.decode(fx)].setValues(address, values)
    ]] *)
Definition slave_setValues (s : ModbusSlaveContext) (fx addr : Z) (vs : list Z)
  : M Heap unit :=
  fun h =>
    match bank s fx with
    | Ok r =>
        match deref h r with
        | Ok b => (Ok tt, <[r := block_setValues b (shifted s addr) vs]> h)
        | Raise e => (Raise e, h)
        end
    | Raise e => (Raise e, h)
    end.

(** [ModbusServerContext]: [self.single] and the [self._slaves]
    dictionary. *)
Record ModbusServerContext : Type :=
  mkServer { single : bool; slaves_ : gmap Z ModbusSlaveContext }.

(** [Defaults.UnitId]. *)
Definition Defaults_UnitId : Z := 0.

(** [ModbusServerContext(slaves=.., single=False)]: the dictionary is
    kept as given. *)
Definition new_ModbusServerContext_multi (slaves : gmap Z ModbusSlaveContext)
  : ModbusServerContext :=
  {| single := false; slaves_ := slaves |}.

(** [ModbusServerContext(slaves=ctx, single=True)]:
    [self._slaves = {Defaults.UnitId: self._slaves}]. *)
Definition new_ModbusServerContext_single (slave : ModbusSlaveContext)
  : ModbusServerContext :=
  {| single := true; slaves_ := {[ Defaults_UnitId := slave ]} |}.

(** [__getitem__(slave)]: in single mode every id is the default unit;
    an id missing from the dictionary raises [NoSuchSlaveException]. *)
Definition getitem (c : ModbusServerContext) (slave : Z) : result ModbusSlaveContext :=
  let slave := if single c then Defaults_UnitId else slave in
  match slaves_ c !! slave with
  | Some s => Ok s
  | None => Raise NoSuchSlaveException
  end.

(** *** pymodbus.pdu *)

(** [ModbusExceptions]. *)
Definition IllegalFunction : Z := 0x01.
Definition IllegalAddress : Z := 0x02.
Definition IllegalValue : Z := 0x03.
Definition SlaveFailure : Z := 0x04.
Definition GatewayNoResponse : Z := 0x0B.

(** What a response carries besides its header fields: the registers of
    a read-registers response, or the exception code of an
    [ExceptionResponse]. *)
Inductive ResponseBody : Type :=
| Registers (registers : list Z)
| ExceptionCode (exception_code : Z).

Record Response : Type :=
  mkResponse {
      r_transaction_id : Z;
      r_unit_id : Z;
      r_function_code : Z;
      r_body : ResponseBody }.

(** [Defaults.TransactionId]. *)
Definition Defaults_TransactionId : Z := 0.

(** [ExceptionOffset]. *)
Definition ExceptionOffset : Z := 0x80.

(** [ExceptionResponse(function_code, exception_code)]:
    [self.function_code = function_code | self.ExceptionOffset]. *)
Definition ExceptionResponse (function_code exception_code : Z) : Response :=
  {| r_transaction_id := Defaults_TransactionId;
     r_unit_id := Defaults_UnitId;
     r_function_code := Z.lor function_code ExceptionOffset;
     r_body := ExceptionCode exception_code |}.

(** A request: its header fields, its class's [function_code] and its
    [execute(context)] method. *)
Record Request : Type :=
  mkRequest {
      transaction_id : Z;
      unit_id : Z;
      function_code : Z;
      execute : ModbusSlaveContext -> M Heap Response }.

(** [ModbusRequest.doException(exception)]:
    [ExceptionResponse(self.function_code, exception)]. *)
Definition doException (function_code exception : Z) : Response :=
  ExceptionResponse function_code exception.

(** [struct.pack('>B', v)] and [struct.pack('>H', v)]; bytes are
    integers in 0..255. *)
Definition pack_B (v : Z) : result (list Z) :=
  if (0 <=? v) && (v <=? 0xFF) then Ok [v] else Raise StructError.

Definition pack_H (v : Z) : result (list Z) :=
  if (0 <=? v) && (v <=? 0xFFFF)
  then Ok [Z.shiftr v 8; Z.land v 0xFF]
  else Raise StructError.

Fixpoint pack_registers (registers : list Z) : result (list Z) :=
  match registers with
  | [] => Ok []
  | r :: rs =>
      match pack_H r, pack_registers rs with
      | Ok b, Ok bs => Ok (b ++ bs)
      | Raise e, _ => Raise e
      | _, Raise e => Raise e
      end
  end.

(** [encode()]: an exception response is its one exception-code byte; a
    read-registers response is the byte count followed by the registers,
    big-endian. *)
Definition encode (body : ResponseBody) : result (list Z) :=
  match body with
  | ExceptionCode c => pack_B c
  | Registers rs =>
      match pack_B (len rs * 2), pack_registers rs with
      | Ok n, Ok bs => Ok (n ++ bs)
      | Raise e, _ => Raise e
      | _, Raise e => Raise e
      end
  end.

(** *** pymodbus.register_read_message *)

(** [ReadHoldingRegistersRequest.execute] and
    [ReadInputRegistersRequest.execute] (the same body, with the class's
    function code):
    [[
      if not (1 <= self.count <= 0x7d):
          return self.doException(merror.IllegalValue)
      if not context.validate(self.function_code, self.address, self.count):
          return self.doException(merror.IllegalAddress)
      values = context.getValues(self.function_code, self.address, self.count)
      return Read...RegistersResponse(values)
    ]] *)
Definition read_registers_execute (fc addr count : Z) (ctx : ModbusSlaveContext)
  : M Heap Response :=
  fun h =>
    if negb ((1 <=? count) && (count <=? 0x7d))
    then (Ok (doException fc IllegalValue), h)
    else
      match slave_validate ctx fc addr count h with
      | Raise e => (Raise e, h)
      | Ok false => (Ok (doException fc IllegalAddress), h)
      | Ok true =>
          match slave_getValues ctx fc addr count h with
          | Raise e => (Raise e, h)
          | Ok vs =>
              (Ok {| r_transaction_id := Defaults_TransactionId;
                     r_unit_id := Defaults_UnitId;
                     r_function_code := fc;
                     r_body := Registers vs |}, h)
          end
      end.

Definition ReadHoldingRegistersRequest (tid uid addr count : Z) : Request :=
  {| transaction_id := tid; unit_id := uid; function_code := 3;
     execute := read_registers_execute 3 addr count |}.

Definition ReadInputRegistersRequest (tid uid addr count : Z) : Request :=
  {| transaction_id := tid; unit_id := uid; function_code := 4;
     execute := read_registers_execute 4 addr count |}.

(** *** pymodbus.server.sync *)

(** The server object: its context, [ignore_missing_slaves] and
    [broadcast_enable]. *)
Record Server : Type :=
  mkServerObj {
      context : ModbusServerContext;
      ignore_missing_slaves : bool;
      broadcast_enable : bool }.

(** [StartTcpServer(context, address=..)]: [ignore_missing_slaves]
    defaults to [Defaults.IgnoreMissingSlaves = False] and
    [broadcast_enable] to [Defaults.broadcast_enable = False]. *)
Definition StartTcpServer (c : ModbusServerContext) : Server :=
  {| context := c; ignore_missing_slaves := false; broadcast_enable := false |}.

(** [ModbusServerContext.slaves()]: [list(self._slaves.keys())], in the
    order the map lists its keys. *)
Definition ModbusServerContext_slaves (c : ModbusServerContext) : list Z :=
  (map_to_list (slaves_ c)).*1.

(** The loop of the broadcast branch of the handler's [execute]:
    [[
      for unit_id in self.server.context.slaves():
          response = request.execute(self.server.context[unit_id])
    ]] *)
Fixpoint execute_on_all (c : ModbusServerContext)
  (execute : ModbusSlaveContext -> M Heap Response) (units : list Z) : M Heap unit :=
  match units with
  | [] => ret tt
  | u :: us =>
      let! ctx := (fun h => (getitem c u, h)) in
      let! _ := execute ctx in
      execute_on_all c execute us
  end.

(** The response as sent: the handler copies the request's transaction
    and unit ids onto it. *)
Definition stamped (request : Request) (response : Response) : Response :=
  {| r_transaction_id := transaction_id request;
     r_unit_id := unit_id request;
     r_function_code := r_function_code response;
     r_body := r_body response |}.

(** [ModbusBaseRequestHandler.execute(request)], the callback the
    framer calls with a decoded request:
    [[
      broadcast = False
      try:
          if self.server.broadcast_enable and request.unit_id == 0:
              broadcast = True
              for unit_id in self.server.context.slaves():
                  response = request.execute(self.server.context[unit_id])
          else:
              context = self.server.context[request.unit_id]
              response = request.execute(context)
      except NoSuchSlaveException as ex:
          if self.server.ignore_missing_slaves:
              return
          response = request.doException(merror.GatewayNoResponse)
      except Exception as ex:
          response = request.doException(merror.SlaveFailure)
      if not broadcast:
          response.transaction_id = request.transaction_id
          response.unit_id = request.unit_id
          self.send(response)
    ]]
    The result is the response sent, if any. *)
Definition handler_execute (server : Server) (request : Request)
  : Heap -> option Response * Heap :=
  fun h =>
    if broadcast_enable server && (unit_id request =? 0) then
      (None,
       snd (execute_on_all (context server) (execute request)
              (ModbusServerContext_slaves (context server)) h))
    else
      let attempt :=
        match getitem (context server) (unit_id request) with
        | Ok ctx => execute request ctx h
        | Raise e => (Raise e, h)
        end in
      match attempt with
      | (Ok response, h') => (Some (stamped request response), h')
      | (Raise NoSuchSlaveException, h') =>
          if ignore_missing_slaves server then (None, h')
          else (Some (stamped request
                        (doException (function_code request) GatewayNoResponse)), h')
      | (Raise _, h') =>
          (Some (stamped request
                   (doException (function_code request) SlaveFailure)), h')
      end.

(** *** pymodbus.framer *)

(** [ModbusFramer._validate_unit_id(units, single)], for a frame whose
    header carries the unit id [uid]:
    [[
      if single:
          return True
      else:
          if 0 in units or 0xFF in units:
              return True
          return self._header['uid'] in units
    ]] *)
Definition validate_unit_id (units : list Z) (single : bool) (uid : Z) : bool :=
  if single then true
  else if bool_decide (0 ∈ units) || bool_decide (0xFF ∈ units) then true
       else bool_decide (uid ∈ units).

(** [processIncomingPacket(data, callback, unit, single=single)], for
    data that is one complete frame decoding to [request]: the callback
    is called if the unit id is valid, else the frame is discarded
    ("Not a valid unit id - ..., ignoring!!"). *)
Definition processIncomingPacket (callback : Request -> Heap -> option Response * Heap)
  (units : list Z) (single : bool) (request : Request)
  : Heap -> option Response * Heap :=
  fun h =>
    if validate_unit_id units single (unit_id request) then callback request h
    else (None, h).

(** The unit ids the connection handler passes to the framer, in
    [ModbusConnectedRequestHandler.handle]:
    [[
      units = self.server.context.slaves()
      ...
      if self.server.broadcast_enable:
          if 0 not in units:
              units.append(0)
    ]] *)
Definition handler_units (server : Server) : list Z :=
  let units := ModbusServerContext_slaves (context server) in
  if broadcast_enable server && negb (bool_decide (0 ∈ units))
  then units ++ [0]
  else units.

(** One round of [ModbusConnectedRequestHandler.handle] on a received
    frame that decodes to [request]:
    [[
      single = self.server.context.single
      self.framer.processIncomingPacket(data, self.execute, units, single=single)
    ]]
    The result is what the server sends back for the frame, if
    anything. *)
Definition handle (server : Server) (request : Request)
  : Heap -> option Response * Heap :=
  processIncomingPacket (handler_execute server) (handler_units server)
    (single (context server)) request.

End Pymodbus.

(* ===================================================================== *)
(** ** devsim.py *)
(* ===================================================================== *)

Module Devsim.
Import Py Pymodbus.

(** What the refresher thread does to the outside: the datastore calls
    it makes and the sleeps it takes, in order. *)
Inductive Event : Type :=
| SetValues (slave_id fx addr : Z) (vs : list Z)
| Sleep (seconds : Q).

(** The state the thread runs in: the heap of data blocks it shares with
    the server, the [random] module's generator, and the log of its
    calls so far. *)
Record State : Type :=
  mkState { heap : Heap; random : Random; trace : list Event }.

Definition log (ev : Event) : M State unit :=
  fun s => (Ok tt, {| heap := heap s; random := random s; trace := trace s ++ [ev] |}).

(** [random.seed()]. *)
Definition random_seed : M State unit :=
  fun s => (Ok tt, {| heap := heap s; random := seed (random s); trace := trace s |}).

(** [random.randint(a, b)]. *)
Definition random_randint (a b : Z) : M State Z :=
  fun s =>
    let (r, g) := randint a b (random s) in
    (r, {| heap := heap s; random := g; trace := trace s |}).

(** [time.sleep(seconds)]. *)
Definition time_sleep (seconds : Q) : M State unit := log (Sleep seconds).

(** [context[slave_id].setValues(fx, addr, vs)]. *)
Definition context_setValues (c : ModbusServerContext) (slave_id fx addr : Z)
  (vs : list Z) : M State unit :=
  fun s =>
    match getitem c slave_id with
    | Raise e => (Raise e, s)
    | Ok slave =>
        let s1 := {| heap := heap s; random := random s;
                     trace := trace s ++ [SetValues slave_id fx addr vs] |} in
        let (r, h) := slave_setValues slave fx addr vs (heap s1) in
        (r, {| heap := h; random := random s1; trace := trace s1 |})
    end.

(** One iteration of the loop of [sync] (devsim.py:49-52):
    [[
      values = [random.randint(0, 1000) for i in range(10)]
      for slave_id in range(1, 4):
          context[slave_id].setValues(4, 0, values)
      time.sleep(0.1)
    ]] *)
Definition draw_values : M State (list Z) :=
  list_comprehension (fun _ => random_randint 0 1000) (range 10).

Definition write_values (c : ModbusServerContext) (vs : list Z) : M State unit :=
  for_in (range2 1 4) (fun slave_id => context_setValues c slave_id 4 0 vs).

Definition tick (c : ModbusServerContext) : M State unit :=
  let! vs := draw_values in
  let! _ := write_values c vs in
  time_sleep (1 # 10).

(** How a loop stands after a number of iterations: it has returned, it
    is still iterating, or an exception escaped from its body. *)
Inductive Outcome : Type :=
| Returned (s : State)
| Running (s : State)
| Uncaught (e : exn) (s : State).

(** [while cond: body], followed for at most [fuel] iterations. *)
Fixpoint while (cond : State -> bool) (body : M State unit) (fuel : nat) (s : State)
  : Outcome :=
  if cond s then
    match fuel with
    | O => Running s
    | S fuel' =>
        match body s with
        | (Ok _, s') => while cond body fuel' s'
        | (Raise e, s') => Uncaught e s'
        end
    end
  else Returned s.

(** [sync(context)] (devsim.py:45-52): [random.seed()], then
    [while True:] around the iteration above. *)
Definition sync (c : ModbusServerContext) (fuel : nat) (s : State) : Outcome :=
  match random_seed s with
  | (Ok _, s') => while (fun _ => true) (tick c) fuel s'
  | (Raise e, s') => Uncaught e s'
  end.

(** The [__main__] block (devsim.py:72-84). *)

(** [block = ModbusSequentialDataBlock(0, [0]*10)]: the one data block
    of the program, and the heap holding it. *)
Definition block : ref := 0%nat.

Definition heap0 : Heap := {[ block := mkBlock 0 (replicate 10 0) ]}.

(** [slaves = {1: ModbusSlaveContext(di=block, co=block, hr=block, ir=block),
               2: ..., 3: ...}]. *)
Definition slaves : gmap Z ModbusSlaveContext :=
  <[ 1 := new_ModbusSlaveContext block block block block ]>
    (<[ 2 := new_ModbusSlaveContext block block block block ]>
       (<[ 3 := new_ModbusSlaveContext block block block block ]> ∅)).

(** [context = ModbusServerContext(slaves=slaves, single=False)]. *)
Definition context : ModbusServerContext := new_ModbusServerContext_multi slaves.

(** [t = threading.Thread(target=sync, args=(context,)); t.daemon = True]. *)
Record Thread : Type :=
  mkThread { target : nat -> State -> Outcome; daemon : bool }.

Definition t : Thread := {| target := sync context; daemon := true |}.

(** [StartTcpServer(context, address=('127.0.0.1', 5020))]. *)
Definition server : Server := StartTcpServer context.

(** The state in which the thread starts. *)
Definition start (g : Random) : State :=
  {| heap := heap0; random := g; trace := [] |}.

(** What [ModbusSlaveContext(di=block, co=block, hr=block, ir=block)]
    evaluates to: the value each of the three unit ids is mapped to. *)
Definition the_slave : ModbusSlaveContext :=
  new_ModbusSlaveContext block block block block.

(** The durations of the sleeps in a log. *)
Definition sleeps (tr : list Event) : list Q :=
  flat_map (fun ev => match ev with Sleep q => [q] | SetValues _ _ _ _ => [] end) tr.

(** A sample generator for the examples: the raw draws 1, 2, 3, ... *)
Definition sample : Random := {| raw := fun n => Z.of_nat (S n); pos := 0 |}.

(** A heap and a slave table in which every bank is a block of its own:
    blocks 0..3 are the discrete inputs, coils, holding registers and
    input registers of one slave context, mapped to unit ids 1, 2, 3. *)
Definition separate_heap : Heap :=
  <[ 0%nat := mkBlock 0 (replicate 10 0) ]>
    (<[ 1%nat := mkBlock 0 (replicate 10 0) ]>
       (<[ 2%nat := mkBlock 0 (replicate 10 0) ]>
          (<[ 3%nat := mkBlock 0 (replicate 10 0) ]> ∅))).

Definition separate_slave : ModbusSlaveContext :=
  new_ModbusSlaveContext 0%nat 1%nat 2%nat 3%nat.

Definition separate_context : ModbusServerContext :=
  new_ModbusServerContext_multi
    (<[ 1 := separate_slave ]>
       (<[ 2 := separate_slave ]> (<[ 3 := separate_slave ]> ∅))).

(** A slave table and a heap the loop can run on: the slave is
    one-based and its input-register bank is a non-empty block of the
    heap with base address 0. *)
Definition ready_slave (h : Heap) (slave : ModbusSlaveContext) : Prop :=
  zero_mode slave = false
  /\ exists b : ModbusSequentialDataBlock,
      h !! store slave key_i = Some b /\ address b = 0 /\ values b <> [].

Definition ready (c : ModbusServerContext) (h : Heap) : Prop :=
  Forall (fun u => exists slave, getitem c u = Ok slave /\ ready_slave h slave)
    (range2 1 4).

(** The script's slave table without unit id 3. *)
Definition context_without_3 : ModbusServerContext :=
  new_ModbusServerContext_multi
    (<[ 1 := the_slave ]> (<[ 2 := the_slave ]> ∅)).

(** Closed form of a run, used to state what every iteration does. *)

(** The values drawn in iteration [k] (counted from 0). *)
Definition drawn (g : Random) (k : nat) : list Z :=
  map (fun j => raw g (pos g + 10 * k + j)%nat mod 1001) (seq 0 10).

(** The calls of one iteration that writes [vs]. *)
Definition tick_events (vs : list Z) : list Event :=
  [SetValues 1 4 0 vs; SetValues 2 4 0 vs; SetValues 3 4 0 vs; Sleep (1 # 10)].

Fixpoint trace_after (g : Random) (n : nat) : list Event :=
  match n with
  | O => []
  | S k => trace_after g k ++ tick_events (drawn g k)
  end.

Definition values_after (g : Random) (n : nat) : list Z :=
  match n with
  | O => replicate 10 0
  | S k => 0 :: drawn g k
  end.

Definition state_after (g : Random) (n : nat) : State :=
  {| heap := {[ block := mkBlock 0 (values_after g n) ]};
     random := {| raw := raw g; pos := pos g + 10 * n |};
     trace := trace_after g n |}.

End Devsim.

(* ===================================================================== *)
(** ** Facts about slices *)
(* ===================================================================== *)

Module PyFacts.
Import Py.

(** Slices as Python evaluates them. *)
Example getslice_past_the_end : getslice [10; 11; 12; 13] 1 11 = [11; 12; 13].
Proof. reflexivity. Qed.

Example getslice_negative_start : getslice [10; 11; 12; 13] (-3) 3 = [11; 12].
Proof. reflexivity. Qed.

Example getslice_empty_when_reversed : getslice [10; 11; 12; 13] 3 1 = [].
Proof. reflexivity. Qed.

Example setslice_same_length : setslice [10; 11; 12; 13] 1 3 [7; 8] = [10; 7; 8; 13].
Proof. reflexivity. Qed.

Example setslice_past_the_end : setslice [10; 11; 12; 13] 3 6 [7; 8; 9] = [10; 11; 12; 7; 8; 9].
Proof. reflexivity. Qed.

Example setslice_beyond_appends : setslice [10; 11] 5 7 [7; 8] = [10; 11; 7; 8].
Proof. reflexivity. Qed.

Example setslice_reversed_inserts : setslice [10; 11; 12; 13] 3 1 [7] = [10; 11; 12; 7; 13].
Proof. reflexivity. Qed.

Example range2_1_4 : range2 1 4 = [1; 2; 3].
Proof. reflexivity. Qed.

Lemma len_nonneg {A} (l : list A) : 0 <= len l.
Proof. unfold len. lia. Qed.

Lemma len_app {A} (l k : list A) : len (l ++ k) = len l + len k.
Proof. unfold len. rewrite length_app. lia. Qed.

Lemma adjust_index_inside (n i : Z) : 0 <= i <= n -> adjust_index n i = i.
Proof. intros H. unfold adjust_index. destruct (Z.ltb_spec i 0); lia. Qed.

Lemma adjust_index_above (n i : Z) : 0 <= n <= i -> adjust_index n i = n.
Proof. intros H. unfold adjust_index. destruct (Z.ltb_spec i 0); lia. Qed.

Lemma adjust_index_bounds (n i : Z) : 0 <= n -> 0 <= adjust_index n i <= n.
Proof. intros H. unfold adjust_index. destruct (Z.ltb_spec i 0); lia. Qed.

(** A slice never fails and never holds more than was asked for. *)
Lemma getslice_length {A} (l : list A) (start count : Z) :
  0 <= start -> 0 <= count ->
  len (getslice l start (start + count))
  = Z.max 0 (Z.min (start + count) (len l) - Z.min start (len l)).
Proof.
  intros Hs Hc. pose proof (len_nonneg l) as Hl.
  unfold getslice, adjust_index.
  destruct (Z.ltb_spec start 0); [lia|].
  destruct (Z.ltb_spec (start + count) 0); [lia|].
  unfold len in *. rewrite length_take, length_drop. lia.
Qed.

(** Assigning to a slice that starts inside the list (or at its end). *)
Lemma setslice_inside {A} (l new : list A) (start : Z) :
  0 <= start <= len l ->
  setslice l start (start + len new) new
  = take (Z.to_nat start) l ++ new
      ++ drop (Z.to_nat (Z.min (start + len new) (len l))) l.
Proof.
  intros H. pose proof (len_nonneg new) as Hn.
  unfold setslice. rewrite adjust_index_inside by lia.
  unfold adjust_index. destruct (Z.ltb_spec (start + len new) 0); [lia|].
  do 3 f_equal. lia.
Qed.

(** Assigning to a slice that starts beyond the end appends. *)
Lemma setslice_beyond {A} (l new : list A) (start : Z) :
  len l <= start ->
  setslice l start (start + len new) new = l ++ new.
Proof.
  intros H. pose proof (len_nonneg new) as Hn. pose proof (len_nonneg l) as Hl.
  unfold setslice. rewrite !adjust_index_above by lia.
  rewrite Z.max_id. unfold len.
  rewrite Nat2Z.id, take_ge, drop_ge by lia. by rewrite app_nil_r.
Qed.

Lemma setslice_length {A} (l new : list A) (start : Z) :
  0 <= start ->
  len (setslice l start (start + len new) new)
  = Z.max (len l) (Z.min start (len l) + len new).
Proof.
  intros Hs. pose proof (len_nonneg new) as Hn. pose proof (len_nonneg l) as Hl.
  destruct (Z.le_gt_cases start (len l)) as [Hin|Hout].
  - rewrite setslice_inside by lia. rewrite !len_app.
    unfold len in *. rewrite length_take, length_drop. lia.
  - rewrite setslice_beyond by lia. rewrite len_app. lia.
Qed.

(** Reading back the slice just assigned. *)
Lemma getslice_setslice {A} (l new : list A) (start : Z) :
  0 <= start -> start <= len l \/ new = [] ->
  getslice (setslice l start (start + len new) new) start (start + len new) = new.
Proof.
  intros Hs [Hin | ->].
  - pose proof (len_nonneg new) as Hn.
    pose proof (setslice_length l new start Hs) as Hlen.
    unfold getslice. rewrite !adjust_index_inside by lia.
    rewrite setslice_inside by lia.
    assert (length (take (Z.to_nat start) l) = Z.to_nat start) as Htake
      by (rewrite length_take; unfold len in *; lia).
    rewrite <- Htake at 1. rewrite drop_app_length.
    replace (Z.to_nat (start + len new - start)) with (length new)
      by (unfold len; lia).
    by rewrite take_app_length.
  - unfold getslice. cbn [len length Z.of_nat]. rewrite Z.add_0_r, Z.sub_diag.
    reflexivity.
Qed.

End PyFacts.

(* ===================================================================== *)
(** ** Facts about the datastore *)
(* ===================================================================== *)

Module PymodbusFacts.
Import Py Pymodbus PyFacts.

Lemma decode_4 : decode 4 = Ok key_i.
Proof. reflexivity. Qed.

(** The four function codes of the table at devsim.py:27-31 and the
    store key each one decodes to. *)
Lemma decode_read_codes :
  decode 1 = Ok key_c /\ decode 2 = Ok key_d
  /\ decode 3 = Ok key_h /\ decode 4 = Ok key_i.
Proof. repeat split; reflexivity. Qed.

Lemma bank_inv (s : ModbusSlaveContext) (fx : Z) (r : ref) :
  bank s fx = Ok r -> exists k, decode fx = Ok k /\ r = store s k.
Proof.
  unfold bank. destruct (decode fx) as [k|e]; [|discriminate].
  intros [= <-]. by exists k.
Qed.

(** A write through a slave context touches the one block its function
    code decodes to, whether it succeeds or raises. *)
Lemma slave_setValues_frame (s : ModbusSlaveContext) (fx addr : Z) (vs : list Z)
  (h h' : Heap) (res : result unit) (r : ref) :
  slave_setValues s fx addr vs h = (res, h') ->
  bank s fx <> Ok r ->
  h' !! r = h !! r.
Proof.
  unfold slave_setValues. intros H Hr.
  destruct (bank s fx) as [r0|e]; [|by injection H as _ <-].
  destruct (deref h r0) as [b|e]; [|by injection H as _ <-].
  injection H as _ <-. rewrite lookup_insert_ne; [done|congruence].
Qed.

(** What a successful write leaves in the block it goes to. *)
Lemma slave_setValues_ok (s : ModbusSlaveContext) (fx addr : Z) (vs : list Z)
  (h : Heap) (r : ref) (b : ModbusSequentialDataBlock) :
  bank s fx = Ok r -> h !! r = Some b ->
  slave_setValues s fx addr vs h
  = (Ok tt, <[r := block_setValues b (shifted s addr) vs]> h).
Proof.
  intros Hb Hr. unfold slave_setValues, deref. by rewrite Hb, Hr.
Qed.

Lemma slave_getValues_ok (s : ModbusSlaveContext) (fx addr count : Z)
  (h : Heap) (r : ref) (b : ModbusSequentialDataBlock) :
  bank s fx = Ok r -> h !! r = Some b ->
  slave_getValues s fx addr count h
  = Ok (block_getValues b (shifted s addr) count).
Proof.
  intros Hb Hr. unfold slave_getValues, deref. by rewrite Hb, Hr.
Qed.

Lemma slave_validate_ok (s : ModbusSlaveContext) (fx addr count : Z)
  (h : Heap) (r : ref) (b : ModbusSequentialDataBlock) :
  bank s fx = Ok r -> h !! r = Some b ->
  slave_validate s fx addr count h
  = Ok (block_validate b (shifted s addr) count).
Proof.
  intros Hb Hr. unfold slave_validate, deref. by rewrite Hb, Hr.
Qed.

Lemma shifted_bounds (s : ModbusSlaveContext) (addr : Z) :
  addr <= shifted s addr <= addr + 1.
Proof. unfold shifted. destruct (zero_mode s); lia. Qed.

Lemma shifted_plus (s : ModbusSlaveContext) (addr : Z) :
  shifted s addr = addr + shifted s 0.
Proof. unfold shifted. destruct (zero_mode s); lia. Qed.

End PymodbusFacts.

(* ===================================================================== *)
(** ** Facts about the script *)
(* ===================================================================== *)

Module DevsimFacts.
Import Py Pymodbus Devsim PyFacts PymodbusFacts.

Lemma getitem_context (u : Z) :
  getitem context u
  = if decide (u = 1 \/ u = 2 \/ u = 3) then Ok the_slave
    else Raise NoSuchSlaveException.
Proof.
  unfold getitem, context, new_ModbusServerContext_multi, slaves; cbn [single slaves_].
  case_decide as Hu.
  - destruct Hu as [-> | [-> | ->]]; reflexivity.
  - rewrite !lookup_insert_ne, lookup_empty by lia. reflexivity.
Qed.

Lemma getitem_context_ok (u : Z) (s : ModbusSlaveContext) :
  getitem context u = Ok s -> (u = 1 \/ u = 2 \/ u = 3) /\ s = the_slave.
Proof.
  rewrite getitem_context. case_decide; [|discriminate].
  intros [= <-]. done.
Qed.

(** Every bank of every configured slave is the one shared block. *)
Lemma bank_the_slave (fx : Z) (r : ref) : bank the_slave fx = Ok r -> r = block.
Proof.
  intros (k & _ & ->)%bank_inv. by destruct k.
Qed.

Lemma bank_the_slave_ok (fx : Z) (k : store_key) :
  decode fx = Ok k -> bank the_slave fx = Ok block.
Proof. unfold bank. intros ->. by destruct k. Qed.

Lemma drawn_length (g : Random) (k : nat) : length (drawn g k) = 10%nat.
Proof. reflexivity. Qed.

Lemma drawn_range (g : Random) (k : nat) :
  Forall (fun v => 0 <= v <= 1000) (drawn g k).
Proof.
  unfold drawn. apply List.Forall_forall. intros v (j & <- & _)%in_map_iff.
  pose proof (Z.mod_pos_bound (raw g (pos g + 10 * k + j)%nat) 1001). lia.
Qed.

(** The list comprehension draws one value per element, in order. *)
Lemma draws_spec (xs : list Z) (h : Heap) (g : Random) (tr : list Event) :
  list_comprehension (fun _ => random_randint 0 1000) xs
    {| heap := h; random := g; trace := tr |}
  = (Ok (map (fun j => raw g (pos g + j)%nat mod 1001) (seq 0 (length xs))),
     {| heap := h;
        random := {| raw := raw g; pos := pos g + length xs |};
        trace := tr |}).
Proof.
  revert g. induction xs as [|x xs IH]; intros g.
  - cbn. destruct g as [rw p]; cbn. by rewrite Nat.add_0_r.
  - cbn [list_comprehension]. unfold bind at 1.
    unfold random_randint at 1, randint; cbn [random heap trace Z.ltb Z.compare].
    unfold bind at 1. rewrite IH. cbn [ret raw pos length seq map].
    rewrite Nat.add_0_r, <- seq_shift, map_map. unfold ret.
    change (0 + raw g (pos g) mod (1000 - 0 + 1)) with (raw g (pos g) mod 1001).
    replace (pos g + S (length xs))%nat with (S (pos g) + length xs)%nat by lia.
    do 3 f_equal.
    apply map_ext. intros j. do 2 f_equal. lia.
Qed.

Lemma draw_values_spec (h : Heap) (g : Random) (tr : list Event) :
  draw_values {| heap := h; random := g; trace := tr |}
  = (Ok (map (fun j => raw g (pos g + j)%nat mod 1001) (seq 0 10)),
     {| heap := h;
        random := {| raw := raw g; pos := pos g + 10 |};
        trace := tr |}).
Proof. unfold draw_values. by rewrite draws_spec. Qed.

(** One write of the loop, on the shared block. *)
Lemma context_setValues_block (u v0 : Z) (rest vs : list Z) (g : Random)
  (tr : list Event) :
  u = 1 \/ u = 2 \/ u = 3 ->
  (length rest <= 10)%nat -> length vs = 10%nat ->
  context_setValues context u 4 0 vs
    {| heap := {[ block := mkBlock 0 (v0 :: rest) ]}; random := g; trace := tr |}
  = (Ok tt,
     {| heap := {[ block := mkBlock 0 (v0 :: vs) ]}; random := g;
        trace := tr ++ [SetValues u 4 0 vs] |}).
Proof.
  intros Hu Hrest Hvs. unfold context_setValues.
  rewrite getitem_context, decide_True by done. cbn [heap random trace].
  erewrite slave_setValues_ok;
    [| reflexivity | apply lookup_singleton_eq].
  rewrite insert_singleton_eq. do 4 f_equal.
  unfold block_setValues; cbn [address values shifted the_slave
    new_ModbusSlaveContext zero_mode].
  f_equal. change (0 + 1 - 0) with 1.
  rewrite setslice_inside by (unfold len; cbn [length]; lia).
  cbn [Z.to_nat Pos.to_nat Pos.iter_op Nat.add take]. f_equal.
  rewrite drop_ge; [by rewrite app_nil_r|].
  unfold len; cbn [length]. lia.
Qed.

Lemma write_values_block (v0 : Z) (rest vs : list Z) (g : Random)
  (tr : list Event) :
  (length rest <= 10)%nat -> length vs = 10%nat ->
  write_values context vs
    {| heap := {[ block := mkBlock 0 (v0 :: rest) ]}; random := g; trace := tr |}
  = (Ok tt,
     {| heap := {[ block := mkBlock 0 (v0 :: vs) ]}; random := g;
        trace := tr ++ [SetValues 1 4 0 vs; SetValues 2 4 0 vs;
                        SetValues 3 4 0 vs] |}).
Proof.
  intros Hrest Hvs. unfold write_values.
  change (range2 1 4) with [1; 2; 3]. cbn [for_in]. unfold bind.
  rewrite context_setValues_block by (auto; lia).
  rewrite context_setValues_block by (auto; lia).
  rewrite context_setValues_block by (auto; lia).
  unfold ret. by rewrite <- !app_assoc.
Qed.

Lemma values_after_shape (g : Random) (n : nat) :
  exists rest, values_after g n = 0 :: rest /\ (length rest <= 10)%nat.
Proof.
  destruct n as [|k].
  - exists (replicate 9 0). split; [reflexivity | cbn; lia].
  - exists (drawn g k). split; [reflexivity | by rewrite drawn_length].
Qed.

(** One iteration takes the [n]-th state of the run to the next. *)
Lemma tick_state_after (g : Random) (n : nat) :
  tick context (state_after g n) = (Ok tt, state_after g (S n)).
Proof.
  destruct (values_after_shape g n) as (rest & Hv & Hrest).
  unfold tick, state_after, bind. rewrite draw_values_spec. cbn [raw pos].
  rewrite Hv.
  rewrite write_values_block by (done || by rewrite length_map, length_seq).
  unfold time_sleep, log; cbn [heap random trace values_after trace_after].
  unfold tick_events, drawn. rewrite <- app_assoc. cbn [app].
  replace (pos g + 10 * S n)%nat with (pos g + 10 * n + 10)%nat by lia.
  reflexivity.
Qed.

Lemma state_after_0 (g : Random) : state_after g 0 = start g.
Proof.
  destruct g as [rw p]. unfold state_after, start, heap0; cbn.
  by rewrite Nat.add_0_r.
Qed.

Lemma while_state_after (g : Random) (n k : nat) :
  while (fun _ => true) (tick context) n (state_after g k)
  = Running (state_after g (k + n)).
Proof.
  revert k. induction n as [|n IH]; intros k; cbn [while].
  - by rewrite Nat.add_0_r.
  - rewrite tick_state_after, IH. do 2 f_equal. lia.
Qed.

(** The run in closed form: whatever the generator yields, after [n]
    iterations the loop is still running, in the [n]-th state. *)
Lemma sync_state_after (g : Random) (n : nat) :
  sync context n (start g) = Running (state_after g n).
Proof.
  unfold sync, random_seed, seed.
  change {| heap := heap (start g); random := random (start g);
            trace := trace (start g) |} with (start g).
  rewrite <- state_after_0. apply (while_state_after g n 0).
Qed.

(** *** Which blocks a computation leaves alone *)

Lemma bind_leaves {A B} (m : M State A) (k : A -> M State B) (r : ref) :
  (forall s, heap (snd (m s)) !! r = heap s !! r) ->
  (forall a s, heap (snd (k a s)) !! r = heap s !! r) ->
  forall s, heap (snd (bind m k s)) !! r = heap s !! r.
Proof.
  intros Hm Hk s. unfold bind. specialize (Hm s).
  destruct (m s) as [[a|e] s1]; cbn [snd] in *; [|done].
  by rewrite Hk.
Qed.

Lemma list_comprehension_leaves {A B} (f : A -> M State B) (xs : list A) (r : ref) :
  (forall x s, heap (snd (f x s)) !! r = heap s !! r) ->
  forall s, heap (snd (list_comprehension f xs s)) !! r = heap s !! r.
Proof.
  intros Hf. induction xs as [|x xs IH]; [done|].
  cbn [list_comprehension]. apply bind_leaves; [apply Hf|].
  intros y. apply bind_leaves; [apply IH | done].
Qed.

Lemma for_in_leaves {A} (xs : list A) (body : A -> M State unit) (r : ref) :
  Forall (fun x => forall s, heap (snd (body x s)) !! r = heap s !! r) xs ->
  forall s, heap (snd (for_in xs body s)) !! r = heap s !! r.
Proof.
  induction 1 as [|x xs Hx _ IH]; [done|].
  cbn [for_in]. apply bind_leaves; [apply Hx | intros _; apply IH].
Qed.

Lemma random_randint_leaves (a b : Z) (r : ref) (s : State) :
  heap (snd (random_randint a b s)) !! r = heap s !! r.
Proof. unfold random_randint. by destruct (randint a b (random s)). Qed.

Lemma context_setValues_leaves (c : ModbusServerContext) (u addr : Z)
  (vs : list Z) (r : ref) (s : State) :
  match getitem c u with
  | Ok slave => store slave key_i <> r
  | Raise _ => True
  end ->
  heap (snd (context_setValues c u 4 addr vs s)) !! r = heap s !! r.
Proof.
  unfold context_setValues. destruct (getitem c u) as [slave|e]; [|done].
  intros Hr. cbn [heap random trace].
  destruct (slave_setValues slave 4 addr vs (heap s)) as [res h'] eqn:E.
  cbn [snd heap]. eapply slave_setValues_frame; [exact E|].
  unfold bank. rewrite decode_4. congruence.
Qed.

Lemma tick_leaves (c : ModbusServerContext) (r : ref) (s : State) :
  Forall (fun u => match getitem c u with
                   | Ok slave => store slave key_i <> r
                   | Raise _ => True
                   end) (range2 1 4) ->
  heap (snd (tick c s)) !! r = heap s !! r.
Proof.
  intros Hr. revert s. unfold tick.
  apply bind_leaves.
  { apply list_comprehension_leaves. intros _. apply random_randint_leaves. }
  intros vs. apply bind_leaves; [|done].
  apply for_in_leaves. eapply Forall_impl; [exact Hr|].
  intros u Hu s. by apply context_setValues_leaves.
Qed.

(** After every iteration the shared block reads the iteration's values
    at offset 0 through every unit id and every bank. *)
Lemma read_any_bank_after (g : Random) (n : nat) (u fx : Z) (k : store_key) :
  u = 1 \/ u = 2 \/ u = 3 -> decode fx = Ok k ->
  exists slave,
    getitem context u = Ok slave
    /\ slave_getValues slave fx 0 10 (heap (state_after g (S n))) = Ok (drawn g n).
Proof.
  intros Hu Hk. exists the_slave.
  split; [by rewrite getitem_context, decide_True|].
  rewrite (slave_getValues_ok _ _ _ _ _ block (mkBlock 0 (0 :: drawn g n)));
    [reflexivity | by eapply bank_the_slave_ok | apply lookup_singleton_eq].
Qed.

(** *** The framer's unit check on the script's server *)

Lemma elem_of_slaves (c : ModbusServerContext) (u : Z) :
  u ∈ ModbusServerContext_slaves c <-> is_Some (slaves_ c !! u).
Proof.
  unfold ModbusServerContext_slaves. rewrite list_elem_of_fmap. split.
  - intros ([k v] & -> & Hkv%elem_of_map_to_list). by exists v.
  - intros [v Hv]. exists (u, v). split; [done|]. by apply elem_of_map_to_list.
Qed.

Lemma elem_of_slaves_context (u : Z) :
  u ∈ ModbusServerContext_slaves context <-> u = 1 \/ u = 2 \/ u = 3.
Proof.
  rewrite elem_of_slaves.
  pose proof (getitem_context u) as Hget. unfold getitem in Hget.
  cbn [single context new_ModbusServerContext_multi slaves_] in *.
  case_decide as Hu; split; intros H; try done.
  - destruct (slaves !! u); [by eexists | discriminate].
  - destruct H as [v Hv]. change (Devsim.slaves !! u = Some v) in Hv.
    rewrite Hv in Hget. discriminate.
Qed.

(** The server the script starts hands a frame to the handler exactly
    when its unit id is 1, 2 or 3, and discards it otherwise. *)
Lemma handle_server (request : Request) (h : Heap) :
  handle server request h
  = if decide (unit_id request = 1 \/ unit_id request = 2 \/ unit_id request = 3)
    then handler_execute server request h
    else (None, h).
Proof.
  unfold handle, processIncomingPacket, handler_units, validate_unit_id.
  unfold server at 1 2 3 4, StartTcpServer.
  cbn [Pymodbus.context broadcast_enable andb single context
       new_ModbusServerContext_multi].
  fold context.
  rewrite (bool_decide_eq_false_2 (0 ∈ ModbusServerContext_slaves context))
    by (rewrite elem_of_slaves_context; lia).
  rewrite (bool_decide_eq_false_2 (255 ∈ ModbusServerContext_slaves context))
    by (rewrite elem_of_slaves_context; lia).
  cbn [orb]. case_decide as Hu.
  - by rewrite bool_decide_eq_true_2 by (by rewrite elem_of_slaves_context).
  - by rewrite bool_decide_eq_false_2 by (by rewrite elem_of_slaves_context).
Qed.

(** For the configured units, what the server sends is what the
    handler's [execute] sends. *)
Lemma handle_configured_unit (request : Request) (h : Heap) :
  unit_id request = 1 \/ unit_id request = 2 \/ unit_id request = 3 ->
  handle server request h = handler_execute server request h.
Proof. intros Hu. by rewrite handle_server, decide_True. Qed.

End DevsimFacts.

Import Py Pymodbus Devsim PyFacts PymodbusFacts DevsimFacts.

(* ===================================================================== *)
(** ** The refresher's iteration *)
(* ===================================================================== *)


(** C2: the block starts as ten zeros; after the first iteration has
    written its 10 values, a read-input-registers request (function
    code 4, offset 0, count 10) addressed to unit 1, 2 or 3 is answered
    with exactly those 10 values, and serving it leaves the heap as it
    is. *)
Theorem read_input_registers_after_first_tick (g : Random) (tid : Z) :
  exists (s' : State) (vs : list Z),
    heap (start g) !! block = Some (mkBlock 0 [0; 0; 0; 0; 0; 0; 0; 0; 0; 0])
    /\ fst (draw_values (start g)) = Ok vs
    /\ length vs = 10%nat
    /\ tick context (start g) = (Ok tt, s')
    /\ sync context 1 (start g) = Running s'
    /\ Forall (fun u =>
                 handler_execute server (ReadInputRegistersRequest tid u 0 10) (heap s')
                 = (Some {| r_transaction_id := tid; r_unit_id := u;
                            r_function_code := 4; r_body := Registers vs |},
                    heap s'))
         [1; 2; 3].
Proof.
  exists (state_after g 1), (drawn g 0).
  split; [reflexivity|].
  split; [rewrite <- state_after_0; unfold state_after; by rewrite draw_values_spec|].
  split; [apply drawn_length|].
  split; [rewrite <- state_after_0; apply tick_state_after|].
  split; [apply sync_state_after|].
  repeat constructor; reflexivity.
Qed.

(* ===================================================================== *)
(** ** Which banks an iteration touches *)
(* ===================================================================== *)

(** C3, as stated, fails on the script: the first iteration changes what
    the holding-register, coil and discrete-input banks of slave 1 read
    (function codes 3, 1 and 2), because they are the block that is also
    its input-register bank. *)
Lemma tick_changes_the_other_banks :
  getitem context 1 = Ok the_slave
  /\ fst (tick context (start sample)) = Ok tt
  /\ Forall (fun fx =>
               slave_getValues the_slave fx 0 9 (heap (start sample))
               = Ok [0; 0; 0; 0; 0; 0; 0; 0; 0]
               /\ slave_getValues the_slave fx 0 9
                    (heap (snd (tick context (start sample))))
                  = Ok [1; 2; 3; 4; 5; 6; 7; 8; 9])
       [3; 1; 2].
Proof. repeat constructor; reflexivity. Qed.

(** C3, amended: an iteration writes only through function code 4, so
    only into blocks that slave 1, 2 or 3 holds as its input-register
    bank; every other block of the heap is left as it was, whatever the
    slave table. In devsim.py the other three banks of each slave are
    that same block, so they change with it: after every iteration a read
    of offset 0, count 10 through function code 1, 2, 3 or 4 of unit 1, 2
    or 3 returns the values just written. *)
Theorem tick_writes_only_input_register_blocks :
  (forall (c : ModbusServerContext) (s : State) (r : ref),
      Forall (fun u => match getitem c u with
                       | Ok slave => store slave key_i <> r
                       | Raise _ => True
                       end) (range2 1 4) ->
      heap (snd (tick c s)) !! r = heap s !! r)
  /\ (forall (g : Random) (n : nat),
       exists (s s' : State) (vs : list Z),
         sync context n (start g) = Running s
         /\ fst (draw_values s) = Ok vs
         /\ tick context s = (Ok tt, s')
         /\ sync context (S n) (start g) = Running s'
         /\ Forall (fun fx =>
                      Forall (fun u => exists slave,
                                  getitem context u = Ok slave
                                  /\ slave_getValues slave fx 0 10 (heap s') = Ok vs)
                        [1; 2; 3])
              [1; 2; 3; 4]).
Proof.
  split.
  - intros c s r Hr. by apply tick_leaves.
  - intros g n. exists (state_after g n), (state_after g (S n)), (drawn g n).
    split; [apply sync_state_after|].
    split; [unfold state_after; by rewrite draw_values_spec|].
    split; [apply tick_state_after|].
    split; [apply sync_state_after|].
    repeat constructor; eapply read_any_bank_after; auto; reflexivity.
Qed.

(** With a block of its own per bank, an iteration leaves the holding
    registers (block 2) as they were. *)
Lemma tick_writes_only_input_register_blocks_witness :
  Forall (fun u => match getitem separate_context u with
                   | Ok slave => store slave key_i <> 2%nat
                   | Raise _ => True
                   end) (range2 1 4)
  /\ heap (snd (tick separate_context
                  {| heap := separate_heap; random := sample; trace := [] |}))
       !! 2%nat
     = Some (mkBlock 0 (replicate 10 0)).
Proof.
  assert (Forall (fun u => match getitem separate_context u with
                           | Ok slave => store slave key_i <> 2%nat
                           | Raise _ => True
                           end) (range2 1 4)) as Hr
    by (repeat constructor; vm_compute; lia).
  split; [exact Hr|].
  rewrite (proj1 tick_writes_only_input_register_blocks _ _ _ Hr).
  reflexivity.
Defined.

(* ===================================================================== *)
(** ** The slave table *)
(* ===================================================================== *)

(** C4, as stated, fails on the script: a holding-register write made
    through unit 1 changes what unit 2 and unit 3 read. *)
Lemma write_through_unit_1_shows_through_units_2_and_3 :
  getitem context 1 = Ok the_slave
  /\ fst (slave_setValues the_slave 3 0 [7] heap0) = Ok tt
  /\ Forall (fun u => exists slave,
                 getitem context u = Ok slave
                 /\ slave_getValues slave 3 0 1 heap0 = Ok [0]
                 /\ slave_getValues slave 3 0 1
                      (snd (slave_setValues the_slave 3 0 [7] heap0))
                    = Ok [7])
       [2; 3].
Proof. repeat constructor; exists the_slave; repeat split; reflexivity. Qed.

(** C4, amended: the table is built with [single=False] and maps exactly
    the unit ids 1, 2 and 3, each to a slave context, and every other id
    to [NoSuchSlaveException]; but the three contexts hold one and the
    same block as every bank, so after a write made through any unit id
    and function code, every unit id reads, through every function code,
    the same values the writing one does. *)
Theorem slave_table_shares_one_block
  (u1 u2 fx1 fx2 addr a n : Z) (s1 s2 : ModbusSlaveContext) (k1 k2 : store_key)
  (vs : list Z) (h h' : Heap) :
  getitem context u1 = Ok s1 -> getitem context u2 = Ok s2 ->
  decode fx1 = Ok k1 -> decode fx2 = Ok k2 ->
  slave_setValues s1 fx1 addr vs h = (Ok tt, h') ->
  single context = false
  /\ (forall u, getitem context u
                = if decide (u = 1 \/ u = 2 \/ u = 3) then Ok the_slave
                  else Raise NoSuchSlaveException)
  /\ store s1 k1 = store s2 k2
  /\ slave_getValues s2 fx2 a n h' = slave_getValues s1 fx1 a n h'.
Proof.
  intros [_ ->]%getitem_context_ok [_ ->]%getitem_context_ok Hk1 Hk2 _.
  split; [reflexivity|]. split; [apply getitem_context|].
  split; [by destruct k1, k2|].
  unfold slave_getValues.
  by rewrite (bank_the_slave_ok _ _ Hk1), (bank_the_slave_ok _ _ Hk2).
Qed.

Lemma slave_table_shares_one_block_witness :
  slave_getValues the_slave 1 0 3
    (snd (slave_setValues the_slave 16 0 [7; 8; 9] heap0))
  = Ok [7; 8; 9].
Proof.
  rewrite (proj2 (proj2 (proj2
    (slave_table_shares_one_block 2 3 16 1 0 0 3 the_slave the_slave
       key_h key_c [7; 8; 9] heap0
       (snd (slave_setValues the_slave 16 0 [7; 8; 9] heap0))
       eq_refl eq_refl eq_refl eq_refl eq_refl)))).
  reflexivity.
Defined.

(* ===================================================================== *)
(** ** The loop *)
(* ===================================================================== *)

(** C5, as stated, fails on the script: the loop of [sync] has no state
    in which it returns, so there is no signal on which it would. *)
Lemma sync_on_sample_never_returns :
  ~ exists (fuel : nat) (s : State), sync context fuel (start sample) = Returned s.
Proof.
  intros (fuel & s & H). rewrite sync_state_after in H. discriminate.
Qed.

(** C5, amended: the loop of [sync] is [while True] and checks no
    shutdown signal; whatever the generator yields it never returns and
    no exception escapes it: after any number of iterations it is still
    running, having slept 0.1 s (a bounded sleep) once per iteration. It
    runs in a daemon thread, which ends with the process. *)
Theorem sync_runs_until_the_process_ends (g : Random) (fuel : nat) :
  exists s : State,
    sync context fuel (start g) = Running s
    /\ sleeps (trace s) = replicate fuel (1 # 10)%Q
    /\ length (trace s) = (4 * fuel)%nat
    /\ daemon t = true.
Proof.
  exists (state_after g fuel). split; [apply sync_state_after|].
  cbn [state_after trace]. repeat split.
  - induction fuel as [|k IH]; [reflexivity|].
    cbn [trace_after]. unfold sleeps in *. rewrite flat_map_app, IH.
    cbn [tick_events flat_map app].
    change (replicate (S k) (1 # 10)%Q) with ((1 # 10)%Q :: replicate k (1 # 10)%Q).
    clear IH. induction k as [|k IH]; [reflexivity|]. cbn. by rewrite IH.
  - induction fuel as [|k IH]; [reflexivity|].
    cbn [trace_after]. rewrite length_app, IH. cbn [tick_events length]. lia.
Qed.

(* ===================================================================== *)
(** ** Frames for unknown units *)
(* ===================================================================== *)

(** C6, as stated, fails on the script's server: a frame for unit 4, or
    for unit 0, is discarded by the framer's unit check before the
    handler is called, so no response at all is sent for it. *)
Lemma frame_for_unknown_unit_gets_no_response :
  handle server (ReadHoldingRegistersRequest 9 4 0 10) heap0 = (None, heap0)
  /\ handle server (ReadInputRegistersRequest 9 0 0 10) heap0 = (None, heap0).
Proof. split; reflexivity. Qed.

(** C6, amended: for a frame whose unit id is none of 1, 2, 3 the server
    sends no response, whatever the request's class and whatever the
    heap holds: the framer discards the frame, the request is not
    executed and the heap is left as it was. The handler's [execute]
    does map a missing slave to an exception response carrying the
    request's function code or-ed with 0x80 and exception code 11
    (encoded as the single byte 11), again without executing the request
    or touching the heap, but on this server it is never called for such
    a unit id. *)
Theorem unknown_unit_frame_is_discarded (request : Request) (h : Heap) :
  unit_id request <> 1 -> unit_id request <> 2 -> unit_id request <> 3 ->
  handle server request h = (None, h)
  /\ handler_execute server request h
     = (Some {| r_transaction_id := transaction_id request;
                r_unit_id := unit_id request;
                r_function_code := Z.lor (function_code request) 0x80;
                r_body := ExceptionCode 11 |},
        h)
  /\ encode (ExceptionCode 11) = Ok [11].
Proof.
  intros H1 H2 H3. split; [|split; [|reflexivity]].
  - rewrite handle_server, decide_False by lia. reflexivity.
  - unfold handler_execute, server, StartTcpServer;
      cbn [Pymodbus.context ignore_missing_slaves broadcast_enable andb].
    rewrite getitem_context, decide_False by lia. reflexivity.
Qed.

Lemma unknown_unit_frame_is_discarded_witness :
  handle server (ReadHoldingRegistersRequest 9 4 0 10) heap0 = (None, heap0)
  /\ handler_execute server (ReadHoldingRegistersRequest 9 4 0 10) heap0
     = (Some {| r_transaction_id := 9; r_unit_id := 4;
                r_function_code := 131; r_body := ExceptionCode 11 |},
        heap0)
  /\ encode (ExceptionCode 11) = Ok [11].
Proof.
  apply (unknown_unit_frame_is_discarded (ReadHoldingRegistersRequest 9 4 0 10) heap0);
    cbn; lia.
Defined.

(* ===================================================================== *)
(** ** Reading and writing a bank *)
(* ===================================================================== *)

(** C7: for every slave context (one-based or zero-based), every bank of
    it with a base address between 0 and the accessed address (base 0 in
    devsim.py), every value sequence and every offset with
    offset + count <= bank length, writing the sequence at the offset
    succeeds and reading (offset, count) back from the same bank returns
    exactly the written values. *)
Theorem read_after_write_roundtrip
  (s : ModbusSlaveContext) (fx : Z) (r : ref) (b : ModbusSequentialDataBlock)
  (h : Heap) (offset : Z) (vs : list Z) :
  bank s fx = Ok r -> h !! r = Some b ->
  0 <= address b <= shifted s offset ->
  offset + len vs <= len (values b) ->
  exists h' : Heap,
    slave_setValues s fx offset vs h = (Ok tt, h')
    /\ slave_getValues s fx offset (len vs) h' = Ok vs.
Proof.
  intros Hb Hr Hbase Hfit.
  eexists. split; [by apply slave_setValues_ok|].
  erewrite slave_getValues_ok; [|exact Hb|apply lookup_insert_eq].
  f_equal. unfold block_getValues, block_setValues; cbn [address values].
  apply getslice_setslice; [lia|].
  destruct vs as [|v vs']; [by right|left].
  pose proof (shifted_bounds s offset). pose proof (len_nonneg vs').
  unfold len in *. cbn [length] in *. lia.
Qed.

Lemma read_after_write_roundtrip_witness :
  exists h' : Heap,
    slave_setValues the_slave 4 0 [1; 2; 3; 4; 5; 6; 7; 8; 9; 10] heap0 = (Ok tt, h')
    /\ slave_getValues the_slave 4 0 10 h' = Ok [1; 2; 3; 4; 5; 6; 7; 8; 9; 10].
Proof.
  apply (read_after_write_roundtrip the_slave 4 block (mkBlock 0 (replicate 10 0))
           heap0 0 [1; 2; 3; 4; 5; 6; 7; 8; 9; 10]);
    [reflexivity | reflexivity | vm_compute; split; discriminate
    | vm_compute; discriminate].
Defined.

(** C8, as stated, fails on the code: on the script's block of ten
    zeros, offset 5 with count 10 is beyond the bank, yet the write
    succeeds and leaves a bank of 16 values, and the read succeeds with
    the four values that exist. *)
Lemma write_beyond_the_bank_grows_it :
  5 + len [1; 2; 3; 4; 5; 6; 7; 8; 9; 10] > len (replicate 10 0)
  /\ slave_setValues the_slave 4 5 [1; 2; 3; 4; 5; 6; 7; 8; 9; 10] heap0
     = (Ok tt,
        {[ block := mkBlock 0 [0; 0; 0; 0; 0; 0; 1; 2; 3; 4; 5; 6; 7; 8; 9; 10] ]})
  /\ slave_getValues the_slave 4 5 10 heap0 = Ok [0; 0; 0; 0].
Proof. repeat split; reflexivity. Qed.

(** C8, amended: for every slave context, every bank of it whose base
    address is not above the context's first address (base 0 in
    devsim.py), every offset >= 0 and count >= 1 with
    offset + count > bank length: [validate] answers False, so a
    read-registers request for that range is answered with an exception
    response (code 2, illegal data address; code 3 when count > 125) and
    leaves the heap as it was. The direct operations the refresher uses
    do no range check: [getValues] succeeds with fewer than count values
    and [setValues] succeeds and leaves a longer bank. *)
Theorem out_of_range_is_rejected_by_validate_only
  (s : ModbusSlaveContext) (fx : Z) (r : ref) (b : ModbusSequentialDataBlock)
  (h : Heap) (offset : Z) (vs : list Z) :
  bank s fx = Ok r -> h !! r = Some b ->
  address b <= shifted s 0 ->
  0 <= offset -> 0 < len vs ->
  offset + len vs > len (values b) ->
  slave_validate s fx offset (len vs) h = Ok false
  /\ read_registers_execute fx offset (len vs) s h
     = (Ok (doException fx (if len vs <=? 0x7d then IllegalAddress else IllegalValue)),
        h)
  /\ (exists l : list Z,
        slave_getValues s fx offset (len vs) h = Ok l /\ len l < len vs)
  /\ (exists (h' : Heap) (b' : ModbusSequentialDataBlock),
        slave_setValues s fx offset vs h = (Ok tt, h')
        /\ h' !! r = Some b'
        /\ len (values b) < len (values b')).
Proof.
  intros Hb Hr Hbase Hoff Hcount Hout.
  pose proof (shifted_plus s offset) as Hsh.
  pose proof (len_nonneg (values b)) as Hlen.
  assert (slave_validate s fx offset (len vs) h = Ok false) as Hval.
  { erewrite slave_validate_ok by eassumption. f_equal.
    unfold block_validate. apply andb_false_iff. right.
    apply Z.leb_gt. lia. }
  split; [exact Hval|]. split; [|split].
  - unfold read_registers_execute. rewrite Hval.
    destruct (Z.leb_spec (len vs) 0x7d) as [Hle|Hgt].
    + replace (1 <=? len vs) with true by (symmetry; apply Z.leb_le; lia).
      reflexivity.
    + replace (1 <=? len vs) with true by (symmetry; apply Z.leb_le; lia).
      reflexivity.
  - eexists. split; [eapply slave_getValues_ok; eassumption|].
    unfold block_getValues. rewrite getslice_length by lia. lia.
  - eexists _, _. split; [eapply slave_setValues_ok; eassumption|].
    split; [apply lookup_insert_eq|].
    unfold block_setValues; cbn [values]. rewrite setslice_length by lia. lia.
Qed.

Lemma out_of_range_is_rejected_by_validate_only_witness :
  slave_validate the_slave 4 5 10 heap0 = Ok false
  /\ read_registers_execute 4 5 10 the_slave heap0
     = (Ok (doException 4 IllegalAddress), heap0)
  /\ (exists l : list Z,
        slave_getValues the_slave 4 5 10 heap0 = Ok l /\ len l < 10)
  /\ (exists (h' : Heap) (b' : ModbusSequentialDataBlock),
        slave_setValues the_slave 4 5 [1; 2; 3; 4; 5; 6; 7; 8; 9; 10] heap0 = (Ok tt, h')
        /\ h' !! block = Some b'
        /\ 10 < len (values b')).
Proof.
  apply (out_of_range_is_rejected_by_validate_only the_slave 4 block
           (mkBlock 0 (replicate 10 0)) heap0 5 [1; 2; 3; 4; 5; 6; 7; 8; 9; 10]);
    first [reflexivity | vm_compute; discriminate].
Defined.

(* ===================================================================== *)
(** ** The shared block over a run *)
(* ===================================================================== *)

(** C9: the slave contexts are one-based and the block has base address
    0 and ten zeros, so the write addressed at offset 0 goes to internal
    indices 1..10: after the first and after every later iteration the
    block holds 11 values, a 0 at index 0 followed by the 10 values the
    iteration wrote. *)
Theorem write_at_offset_0_lands_at_indices_1_to_10 (g : Random) (n : nat) :
  zero_mode the_slave = false
  /\ (exists b0 : ModbusSequentialDataBlock,
        heap (start g) !! block = Some b0
        /\ address b0 = 0
        /\ values b0 = [0; 0; 0; 0; 0; 0; 0; 0; 0; 0]
        /\ length (values b0) = 10%nat)
  /\ exists (s : State) (tr : list Event) (vs : list Z) (b : ModbusSequentialDataBlock),
       sync context (S n) (start g) = Running s
       /\ trace s = tr ++ [SetValues 1 4 0 vs; SetValues 2 4 0 vs;
                           SetValues 3 4 0 vs; Sleep (1 # 10)]
       /\ length vs = 10%nat
       /\ heap s !! block = Some b
       /\ address b = 0
       /\ values b = 0 :: vs
       /\ length (values b) = 11%nat.
Proof.
  split; [reflexivity|].
  split; [exists (mkBlock 0 (replicate 10 0)); repeat split|].
  exists (state_after g (S n)), (trace_after g n), (drawn g n),
    (mkBlock 0 (0 :: drawn g n)).
  split; [apply sync_state_after|]. repeat split.
Qed.

(** C10: every iteration draws one sequence, advancing the generator by
    exactly 10 draws, and passes that same sequence to slaves 1, 2 and
    3; afterwards the three unit ids read the same input-register values
    as one another, for any offset and count, and at offset 0, count 10
    those are the sequence drawn. The state [sync] is in after [n + 1]
    iterations is the one this iteration leaves. *)
Theorem one_sequence_per_tick_for_all_slaves (g : Random) (n : nat) :
  exists (s s' : State) (vs : list Z),
    sync context n (start g) = Running s
    /\ fst (draw_values s) = Ok vs
    /\ tick context s = (Ok tt, s')
    /\ sync context (S n) (start g) = Running s'
    /\ pos (random s') = (pos (random s) + 10)%nat
    /\ trace s' = trace s ++ [SetValues 1 4 0 vs; SetValues 2 4 0 vs;
                              SetValues 3 4 0 vs; Sleep (1 # 10)]
    /\ (forall a c : Z, exists l : list Z,
          Forall (fun u => exists slave,
                      getitem context u = Ok slave
                      /\ slave_getValues slave 4 a c (heap s') = Ok l)
            [1; 2; 3])
    /\ Forall (fun u => exists slave,
                   getitem context u = Ok slave
                   /\ slave_getValues slave 4 0 10 (heap s') = Ok vs)
         [1; 2; 3].
Proof.
  exists (state_after g n), (state_after g (S n)), (drawn g n).
  split; [apply sync_state_after|].
  split; [unfold state_after; by rewrite draw_values_spec|].
  split; [apply tick_state_after|].
  split; [apply sync_state_after|].
  split; [cbn; lia|].
  split; [reflexivity|].
  split.
  - intros a c.
    exists (block_getValues (mkBlock 0 (0 :: drawn g n)) (shifted the_slave a) c).
    repeat constructor; exists the_slave; split; reflexivity.
  - repeat constructor; exists the_slave; split; reflexivity.
Qed.

(* ===================================================================== *)
(** ** Further facts about slices and the datastore *)
(* ===================================================================== *)

Module StoreFacts.
Import Py Pymodbus PyFacts PymodbusFacts.

(** A slice that lies inside the list. *)
Lemma getslice_inside {A} (l : list A) (start count : Z) :
  0 <= start -> 0 <= count -> start + count <= len l ->
  getslice l start (start + count)
  = take (Z.to_nat count) (drop (Z.to_nat start) l).
Proof.
  intros Hs Hc Hfit. unfold getslice.
  rewrite !adjust_index_inside by lia. f_equal. lia.
Qed.

Lemma getslice_inside_length {A} (l : list A) (start count : Z) :
  0 <= start -> 0 <= count -> start + count <= len l ->
  len (getslice l start (start + count)) = count.
Proof. intros Hs Hc Hfit. rewrite getslice_length by lia. lia. Qed.

(** Assigning to a slice that lies inside the list. *)
Lemma setslice_fits {A} (l new : list A) (start : Z) :
  0 <= start -> start + len new <= len l ->
  setslice l start (start + len new) new
  = take (Z.to_nat start) l ++ new ++ drop (Z.to_nat (start + len new)) l.
Proof.
  intros Hs Hfit. pose proof (len_nonneg new).
  rewrite setslice_inside by lia. do 3 f_equal. lia.
Qed.

(** Assigning the same values to the same slice again changes nothing. *)
Lemma setslice_twice {A} (l new : list A) (start : Z) :
  0 <= start <= len l ->
  setslice (setslice l start (start + len new) new) start (start + len new) new
  = setslice l start (start + len new) new.
Proof.
  intros Hs. pose proof (len_nonneg new) as Hn.
  pose proof (setslice_length l new start (proj1 Hs)) as Hlen.
  rewrite (setslice_inside (setslice l start (start + len new) new)) by lia.
  rewrite Z.min_l by lia.
  rewrite (setslice_inside l) by lia.
  set (rest := drop (Z.to_nat (Z.min (start + len new) (len l))) l).
  assert (length (take (Z.to_nat start) l) = Z.to_nat start) as Htake
    by (rewrite length_take; unfold len in *; lia).
  f_equal.
  - rewrite take_app_le by lia. rewrite take_ge by lia. reflexivity.
  - f_equal. rewrite app_assoc.
    rewrite drop_app_ge by (rewrite length_app; unfold len in *; lia).
    replace (Z.to_nat (start + len new)
             - length (take (Z.to_nat start) l ++ new))%nat with 0%nat
      by (rewrite length_app; unfold len in *; lia).
    reflexivity.
Qed.

(** A slice disjoint from the one assigned reads as before. *)
Lemma getslice_setslice_disjoint {A} (l new : list A) (start lo count : Z) :
  0 <= start -> start + len new <= len l ->
  0 <= lo -> 0 <= count -> lo + count <= len l ->
  lo + count <= start \/ start + len new <= lo ->
  getslice (setslice l start (start + len new) new) lo (lo + count)
  = getslice l lo (lo + count).
Proof.
  intros Hs Hfit Hlo Hc Hfit' Hdisj. pose proof (len_nonneg new) as Hn.
  pose proof (setslice_length l new start Hs) as Hlen.
  rewrite !getslice_inside by lia.
  rewrite setslice_fits by lia.
  assert (length (take (Z.to_nat start) l) = Z.to_nat start) as Htake
    by (rewrite length_take; unfold len in *; lia).
  destruct Hdisj as [Hbefore | Hafter].
  - rewrite drop_app_le by lia.
    rewrite take_app_le by (rewrite length_drop; lia).
    rewrite !take_drop_commute. f_equal.
    rewrite take_take. f_equal. lia.
  - rewrite app_assoc.
    rewrite drop_app_ge by (rewrite length_app; unfold len in *; lia).
    rewrite drop_drop. do 2 f_equal.
    rewrite length_app. unfold len in *. lia.
Qed.

(** What a validation that answers says about the heap. *)
Lemma slave_validate_inv (s : ModbusSlaveContext) (fx addr count : Z) (h : Heap)
  (v : bool) :
  slave_validate s fx addr count h = Ok v ->
  exists (r : ref) (b : ModbusSequentialDataBlock),
    bank s fx = Ok r /\ h !! r = Some b
    /\ v = block_validate b (shifted s addr) count.
Proof.
  unfold slave_validate, deref. destruct (bank s fx) as [r|e]; [|discriminate].
  destruct (h !! r) as [b|] eqn:Hr; [|discriminate].
  intros [= <-]. by exists r, b.
Qed.

Lemma block_validate_true (b : ModbusSequentialDataBlock) (addr count : Z) :
  block_validate b addr count = true ->
  0 <= addr - address b /\ addr - address b + count <= len (values b).
Proof.
  unfold block_validate. intros [H1 H2]%andb_true_iff.
  apply Z.leb_le in H1, H2. lia.
Qed.

End StoreFacts.

Import StoreFacts.

(* ===================================================================== *)
(** ** Validated access to a bank *)
(* ===================================================================== *)

(** X1: a write whose range [validate] accepts keeps the bank as long as
    it was and at the same base address (it replaces values in place),
    and [validate] answers for the bank afterwards as it did before. *)
Theorem validated_write_keeps_the_bank_length
  (s : ModbusSlaveContext) (fx addr : Z) (vs : list Z) (h : Heap) :
  slave_validate s fx addr (len vs) h = Ok true ->
  exists (r : ref) (b b' : ModbusSequentialDataBlock) (h' : Heap),
    bank s fx = Ok r /\ h !! r = Some b
    /\ slave_setValues s fx addr vs h = (Ok tt, h')
    /\ h' !! r = Some b'
    /\ address b' = address b
    /\ len (values b') = len (values b)
    /\ forall a c : Z, slave_validate s fx a c h' = slave_validate s fx a c h.
Proof.
  intros (r & b & Hb & Hr & Hv)%slave_validate_inv.
  symmetry in Hv. apply block_validate_true in Hv as [Hlo Hhi].
  pose proof (len_nonneg vs) as Hn.
  assert (len (values (block_setValues b (shifted s addr) vs)) = len (values b))
    as Hlen.
  { unfold block_setValues; cbn [values]. rewrite setslice_length by lia. lia. }
  exists r, b, (block_setValues b (shifted s addr) vs),
    (<[r := block_setValues b (shifted s addr) vs]> h).
  split; [done|]. split; [done|].
  split; [by apply slave_setValues_ok|].
  split; [apply lookup_insert_eq|]. split; [reflexivity|]. split; [exact Hlen|].
  intros a c.
  rewrite (slave_validate_ok s fx a c _ r (block_setValues b (shifted s addr) vs))
    by (done || apply lookup_insert_eq).
  rewrite (slave_validate_ok s fx a c h r b) by done.
  unfold block_validate. rewrite Hlen. reflexivity.
Qed.

Lemma validated_write_keeps_the_bank_length_witness :
  exists (r : ref) (b b' : ModbusSequentialDataBlock) (h' : Heap),
    bank the_slave 4 = Ok r /\ heap0 !! r = Some b
    /\ slave_setValues the_slave 4 2 [7; 8; 9] heap0 = (Ok tt, h')
    /\ h' !! r = Some b'
    /\ address b' = address b
    /\ len (values b') = len (values b)
    /\ forall a c : Z,
        slave_validate the_slave 4 a c h' = slave_validate the_slave 4 a c heap0.
Proof.
  apply (validated_write_keeps_the_bank_length the_slave 4 2 [7; 8; 9] heap0).
  reflexivity.
Defined.

(** X2: a read whose range [validate] accepts returns exactly [count]
    values. *)
Theorem validated_read_returns_count_values
  (s : ModbusSlaveContext) (fx addr count : Z) (h : Heap) :
  slave_validate s fx addr count h = Ok true -> 0 <= count ->
  exists l : list Z,
    slave_getValues s fx addr count h = Ok l /\ len l = count.
Proof.
  intros (r & b & Hb & Hr & Hv)%slave_validate_inv Hc.
  symmetry in Hv. apply block_validate_true in Hv as [Hlo Hhi].
  eexists. split; [by eapply slave_getValues_ok|].
  unfold block_getValues. apply getslice_inside_length; lia.
Qed.

Lemma validated_read_returns_count_values_witness :
  exists l : list Z,
    slave_getValues the_slave 3 4 5 heap0 = Ok l /\ len l = 5.
Proof.
  apply (validated_read_returns_count_values the_slave 3 4 5 heap0);
    [reflexivity | lia].
Defined.

(** X3: a validated write leaves every validated range that does not
    overlap it reading as before, through any function code of any
    slave context with the same addressing mode, whether or not the two
    banks are the same block. *)
Theorem write_leaves_the_other_ranges
  (s s' : ModbusSlaveContext) (fx fx' addr addr' count : Z) (vs : list Z)
  (h h' : Heap) :
  zero_mode s = zero_mode s' ->
  slave_validate s fx addr (len vs) h = Ok true ->
  slave_validate s' fx' addr' count h = Ok true -> 0 <= count ->
  addr' + count <= addr \/ addr + len vs <= addr' ->
  slave_setValues s fx addr vs h = (Ok tt, h') ->
  slave_getValues s' fx' addr' count h' = slave_getValues s' fx' addr' count h.
Proof.
  intros Hmode (r & b & Hb & Hr & Hv)%slave_validate_inv
    (r' & b' & Hb' & Hr' & Hv')%slave_validate_inv Hc Hdisj Hset.
  symmetry in Hv, Hv'.
  apply block_validate_true in Hv as [Hlo Hhi].
  apply block_validate_true in Hv' as [Hlo' Hhi'].
  rewrite (slave_setValues_ok s fx addr vs h r b) in Hset by done.
  injection Hset as <-.
  rewrite (slave_getValues_ok s' fx' addr' count h r' b') by done.
  destruct (decide (r' = r)) as [-> | Hne].
  - assert (b' = b) as -> by congruence.
    rewrite (slave_getValues_ok s' fx' addr' count _ r
               (block_setValues b (shifted s addr) vs))
      by (done || apply lookup_insert_eq).
    f_equal. unfold block_getValues, block_setValues; cbn [address values].
    assert (shifted s' addr' - addr' = shifted s addr - addr) as Hsh
      by (unfold shifted; rewrite Hmode; destruct (zero_mode s'); lia).
    apply getslice_setslice_disjoint; lia.
  - rewrite (slave_getValues_ok s' fx' addr' count _ r' b'); [done|done|].
    by rewrite lookup_insert_ne.
Qed.

Lemma write_leaves_the_other_ranges_witness :
  slave_getValues the_slave 1 5 3
    (snd (slave_setValues the_slave 16 0 [7; 8; 9] heap0))
  = slave_getValues the_slave 1 5 3 heap0.
Proof.
  apply (write_leaves_the_other_ranges the_slave the_slave 16 1 0 5 3 [7; 8; 9]
           heap0 (snd (slave_setValues the_slave 16 0 [7; 8; 9] heap0)));
    first [reflexivity | lia | right; vm_compute; discriminate].
Defined.

(** X4: writing the same values at the same address a second time
    changes nothing, provided the address is not below the bank's base
    and not beyond its end. *)
Theorem writing_twice_is_writing_once
  (s : ModbusSlaveContext) (fx addr : Z) (vs : list Z) (r : ref)
  (b : ModbusSequentialDataBlock) (h h1 : Heap) :
  bank s fx = Ok r -> h !! r = Some b ->
  address b <= shifted s addr <= address b + len (values b) ->
  slave_setValues s fx addr vs h = (Ok tt, h1) ->
  slave_setValues s fx addr vs h1 = (Ok tt, h1).
Proof.
  intros Hb Hr Hin Hset.
  rewrite (slave_setValues_ok s fx addr vs h r b) in Hset by done.
  injection Hset as <-.
  rewrite (slave_setValues_ok s fx addr vs _ r
             (block_setValues b (shifted s addr) vs))
    by (done || apply lookup_insert_eq).
  rewrite insert_insert_eq. do 2 f_equal.
  unfold block_setValues; cbn [address values]. f_equal.
  apply setslice_twice. lia.
Qed.

Lemma writing_twice_is_writing_once_witness :
  slave_setValues the_slave 4 0 [1; 2; 3; 4; 5; 6; 7; 8; 9; 10]
    (snd (slave_setValues the_slave 4 0 [1; 2; 3; 4; 5; 6; 7; 8; 9; 10] heap0))
  = (Ok tt, snd (slave_setValues the_slave 4 0 [1; 2; 3; 4; 5; 6; 7; 8; 9; 10] heap0)).
Proof.
  apply (writing_twice_is_writing_once the_slave 4 0 [1; 2; 3; 4; 5; 6; 7; 8; 9; 10]
           block (mkBlock 0 (replicate 10 0)) heap0);
    first [reflexivity | vm_compute; split; discriminate].
Defined.

(* ===================================================================== *)
(** ** Facts about the loop on any slave table *)
(* ===================================================================== *)

Module RunFacts.
Import Py Pymodbus Devsim PyFacts PymodbusFacts DevsimFacts StoreFacts.

Lemma bank_4 (slave : ModbusSlaveContext) : bank slave 4 = Ok (store slave key_i).
Proof. reflexivity. Qed.

Lemma getitem_raises (c : ModbusServerContext) (u : Z) (e : exn) :
  getitem c u = Raise e -> e = NoSuchSlaveException.
Proof.
  unfold getitem. destruct (slaves_ c !! _); [discriminate|]. by intros [= <-].
Qed.

Lemma sleeps_app (tr tr' : list Event) : sleeps (tr ++ tr') = sleeps tr ++ sleeps tr'.
Proof. unfold sleeps. apply flat_map_app. Qed.

(** One write of the loop through a ready slave: it succeeds, the slave
    then reads the values back, and what held of the other slaves before
    still holds. *)
Lemma write_ready (slave : ModbusSlaveContext) (vs : list Z) (h : Heap) :
  length vs = 10%nat -> ready_slave h slave ->
  exists h' : Heap,
    slave_setValues slave 4 0 vs h = (Ok tt, h')
    /\ slave_getValues slave 4 0 10 h' = Ok vs
    /\ (forall s2, ready_slave h s2 -> ready_slave h' s2)
    /\ (forall s2, zero_mode s2 = false ->
                   slave_getValues s2 4 0 10 h = Ok vs ->
                   slave_getValues s2 4 0 10 h' = Ok vs).
Proof.
  intros Hvs (Hmode & b & Hr & Hbase & Hne).
  assert (shifted slave 0 = 1) as Hsh by (unfold shifted; by rewrite Hmode).
  assert (len vs = 10) as Hlen by (unfold len; lia).
  assert (1 <= len (values b)) as Hb1.
  { destruct (values b); [done|]. unfold len; cbn [length]. lia. }
  set (b1 := block_setValues b (shifted slave 0) vs).
  assert (block_getValues b1 1 10 = vs) as Hread.
  { unfold b1, block_getValues, block_setValues; cbn [address values].
    rewrite Hsh, Hbase, <- Hlen. apply getslice_setslice; lia. }
  assert (values b1 <> []) as Hne1.
  { intros Hnil. apply (f_equal len) in Hnil. revert Hnil.
    unfold b1, block_setValues; cbn [values].
    rewrite setslice_length by lia. unfold len at 4; cbn [length]. lia. }
  exists (<[store slave key_i := b1]> h).
  split; [by apply slave_setValues_ok|]. split; [|split].
  - rewrite (slave_getValues_ok slave 4 0 10 _ (store slave key_i) b1)
      by (done || apply lookup_insert_eq).
    by rewrite Hsh, Hread.
  - intros s2 (Hmode2 & b2 & Hr2 & Hbase2 & Hne2). split; [done|].
    destruct (decide (store s2 key_i = store slave key_i)) as [Heq | Hneq].
    + exists b1. rewrite Heq, lookup_insert_eq. by repeat split.
    + exists b2. rewrite lookup_insert_ne by done. by repeat split.
  - intros s2 Hmode2 Hget.
    destruct (decide (store s2 key_i = store slave key_i)) as [Heq | Hneq].
    + rewrite (slave_getValues_ok s2 4 0 10 _ (store slave key_i) b1);
        [| by rewrite bank_4, Heq | apply lookup_insert_eq].
      assert (shifted s2 0 = 1) as -> by (unfold shifted; by rewrite Hmode2).
      by rewrite Hread.
    + revert Hget. unfold slave_getValues, deref. rewrite bank_4.
      by rewrite lookup_insert_ne.
Qed.

(** The writes of one iteration through ready slaves. *)
Lemma write_all_ready (c : ModbusServerContext) (vs : list Z) (us : list Z) :
  length vs = 10%nat ->
  forall s : State,
    Forall (fun u => exists slave, getitem c u = Ok slave
                                   /\ ready_slave (heap s) slave) us ->
    exists h' : Heap,
      for_in us (fun u => context_setValues c u 4 0 vs) s
      = (Ok tt, {| heap := h'; random := random s;
                   trace := trace s ++ map (fun u => SetValues u 4 0 vs) us |})
      /\ (forall s2, ready_slave (heap s) s2 -> ready_slave h' s2)
      /\ (forall s2, zero_mode s2 = false ->
                     slave_getValues s2 4 0 10 (heap s) = Ok vs ->
                     slave_getValues s2 4 0 10 h' = Ok vs)
      /\ Forall (fun u => exists slave, getitem c u = Ok slave
                                        /\ slave_getValues slave 4 0 10 h' = Ok vs) us.
Proof.
  intros Hvs. induction us as [|u us IH]; intros s Hus.
  - exists (heap s). cbn [for_in map]. rewrite app_nil_r.
    destruct s; cbn. split; [reflexivity|]. split; [auto|]. split; [auto|constructor].
  - apply Forall_cons in Hus as [(slave & Hget & Hready) Hus].
    destruct (write_ready slave vs (heap s) Hvs Hready)
      as (h1 & Hset & Hread & Hkeep & Hreads).
    set (s1 := {| heap := h1; random := random s;
                  trace := trace s ++ [SetValues u 4 0 vs] |}).
    assert (context_setValues c u 4 0 vs s = (Ok tt, s1)) as Hstep.
    { unfold context_setValues. rewrite Hget. cbn [heap random trace].
      by rewrite Hset. }
    destruct (IH s1) as (h' & Hrun & Hkeep' & Hreads' & Hall).
    { eapply Forall_impl; [exact Hus|]. cbn beta.
      intros u' (slave' & Hget' & Hready'). exists slave'. split; [done|].
      by apply Hkeep. }
    exists h'. cbn [for_in]. unfold bind at 1. rewrite Hstep, Hrun.
    cbn [heap random trace s1 map]. rewrite <- app_assoc. cbn [app].
    split; [done|]. split; [|split].
    + intros s2 H2. by apply Hkeep', Hkeep.
    + intros s2 Hm H2. by apply Hreads', Hreads.
    + constructor; [|done]. exists slave. split; [done|].
      apply Hreads'; [apply Hready | done].
Qed.

(** One iteration on a ready slave table. *)
Lemma tick_ready (c : ModbusServerContext) (s : State) :
  ready c (heap s) ->
  exists (vs : list Z) (h' : Heap),
    fst (draw_values s) = Ok vs
    /\ length vs = 10%nat
    /\ tick c s
       = (Ok tt, {| heap := h';
                    random := {| raw := raw (random s); pos := pos (random s) + 10 |};
                    trace := trace s ++ tick_events vs |})
    /\ ready c h'
    /\ Forall (fun u => exists slave, getitem c u = Ok slave
                                      /\ slave_getValues slave 4 0 10 h' = Ok vs)
         (range2 1 4).
Proof.
  destruct s as [h g tr]. cbn [heap random trace]. intros Hready.
  set (vs := map (fun j => raw g (pos g + j)%nat mod 1001) (seq 0 10)).
  assert (length vs = 10%nat) as Hvs by reflexivity.
  destruct (write_all_ready c vs (range2 1 4) Hvs
              {| heap := h;
                 random := {| raw := raw g; pos := pos g + 10 |};
                 trace := tr |} Hready)
    as (h' & Hrun & Hkeep & _ & Hall).
  exists vs, h'. rewrite draw_values_spec. split; [done|]. split; [done|].
  split; [|split; [|done]].
  - unfold tick, bind. rewrite draw_values_spec. fold vs.
    unfold write_values. rewrite Hrun. cbn [heap random trace].
    unfold time_sleep, log; cbn [heap random trace].
    rewrite <- app_assoc. reflexivity.
  - eapply Forall_impl; [exact Hready|]. cbn beta.
    intros u (slave & Hget & Hs). exists slave. split; [done|]. by apply Hkeep.
Qed.

(** The loop on a ready slave table. *)
Lemma while_ready (c : ModbusServerContext) (fuel : nat) :
  forall s : State,
    ready c (heap s) ->
    exists s' : State,
      while (fun _ => true) (tick c) fuel s = Running s'
      /\ ready c (heap s')
      /\ length (trace s') = (length (trace s) + 4 * fuel)%nat
      /\ sleeps (trace s') = sleeps (trace s) ++ replicate fuel (1 # 10)%Q
      /\ raw (random s') = raw (random s)
      /\ pos (random s') = (pos (random s) + 10 * fuel)%nat.
Proof.
  induction fuel as [|fuel IH]; intros s Hready.
  - exists s. cbn [while replicate]. rewrite app_nil_r.
    repeat split; (done || lia).
  - destruct (tick_ready c s Hready) as (vs & h' & _ & _ & Htick & Hready' & _).
    cbn [while]. rewrite Htick.
    destruct (IH {| heap := h';
                    random := {| raw := raw (random s); pos := pos (random s) + 10 |};
                    trace := trace s ++ tick_events vs |} Hready')
      as (s' & Hrun & Hr & Hlen & Hsl & Hraw & Hpos).
    exists s'. split; [done|]. split; [done|].
    cbn [heap random trace raw pos] in *.
    rewrite Hlen, Hsl, Hraw, Hpos, length_app, sleeps_app.
    cbn [tick_events length sleeps flat_map app replicate].
    rewrite <- app_assoc. cbn [app]. repeat split; lia.
Qed.

Lemma separate_ready : ready separate_context separate_heap.
Proof.
  unfold ready. change (range2 1 4) with [1; 2; 3].
  repeat constructor; exists separate_slave; (split; [reflexivity|]);
    (split; [reflexivity|]); eexists; (split; [reflexivity|]);
    (split; [reflexivity|discriminate]).
Qed.

Lemma for_in_app {S A} (xs ys : list A) (body : A -> M S unit) (s : S) :
  for_in (xs ++ ys) body s = bind (for_in xs body) (fun _ => for_in ys body) s.
Proof.
  revert s. induction xs as [|x xs IH]; intros s; [reflexivity|].
  cbn [app for_in]. unfold bind.
  destruct (body x s) as [[[]|e] s1]; [|reflexivity].
  rewrite IH. reflexivity.
Qed.

(** The ids before the first missing one. *)
Lemma first_missing (c : ModbusServerContext) (us : list Z) :
  Exists (fun u => getitem c u = Raise NoSuchSlaveException) us ->
  exists (written : list Z) (missing : Z) (rest : list Z),
    us = written ++ missing :: rest
    /\ Forall (fun u => exists slave, getitem c u = Ok slave) written
    /\ getitem c missing = Raise NoSuchSlaveException.
Proof.
  induction us as [|u us IH]; intros Hmiss; [by inversion Hmiss|].
  destruct (getitem c u) as [slave|e] eqn:Hget.
  - apply Exists_cons in Hmiss as [Hmiss | Hmiss]; [congruence|].
    destruct (IH Hmiss) as (written & missing & rest & -> & Hw & Hm).
    exists (u :: written), missing, rest. split; [reflexivity|].
    split; [|done]. constructor; [by exists slave | done].
  - pose proof (getitem_raises _ _ _ Hget) as ->.
    exists [], u, us. by repeat split.
Qed.

Lemma sleeps_of_writes (vs : list Z) (us : list Z) :
  sleeps (map (fun u => SetValues u 4 0 vs) us) = [].
Proof. induction us as [|u us IH]; [reflexivity | exact IH]. Qed.

(** An iteration on a slave table with a missing id: the ready slaves
    before the first missing id are written, then the lookup raises. *)
Lemma tick_until_missing (c : ModbusServerContext) (s : State) :
  Exists (fun u => getitem c u = Raise NoSuchSlaveException) (range2 1 4) ->
  Forall (fun u => match getitem c u with
                   | Ok slave => ready_slave (heap s) slave
                   | Raise _ => True
                   end) (range2 1 4) ->
  exists (vs written : list Z) (missing : Z) (rest : list Z) (h' : Heap),
    range2 1 4 = written ++ missing :: rest
    /\ getitem c missing = Raise NoSuchSlaveException
    /\ fst (draw_values s) = Ok vs
    /\ tick c s
       = (Raise NoSuchSlaveException,
          {| heap := h';
             random := {| raw := raw (random s); pos := pos (random s) + 10 |};
             trace := trace s ++ map (fun u => SetValues u 4 0 vs) written |})
    /\ Forall (fun u => exists slave,
                   getitem c u = Ok slave
                   /\ slave_getValues slave 4 0 10 h' = Ok vs) written
    /\ match written with [] => h' = heap s | _ :: _ => True end.
Proof.
  intros Hmiss Hready. destruct s as [h g tr]. cbn [heap random trace] in *.
  destruct (first_missing c _ Hmiss) as (written & missing & rest & Hus & Hw & Hm).
  rewrite Hus in Hready. apply Forall_app in Hready as [Hready _].
  set (vs := map (fun j => raw g (pos g + j)%nat mod 1001) (seq 0 10)).
  assert (length vs = 10%nat) as Hvs by reflexivity.
  set (s0 := {| heap := h;
                random := {| raw := raw g; pos := pos g + 10 |};
                trace := tr |}).
  destruct (write_all_ready c vs written Hvs s0) as (h' & Hrun & _ & _ & Hall).
  { clear -Hw Hready. induction Hw as [|u us [slave Hget] _ IH]; [constructor|].
    apply Forall_cons in Hready as [Hu Hready]. constructor; [|by apply IH].
    exists slave. split; [done|]. by rewrite Hget in Hu. }
  exists vs, written, missing, rest, h'.
  split; [done|]. split; [done|]. rewrite draw_values_spec. split; [done|].
  split; [|split; [done|]].
  - unfold tick, bind at 1. rewrite draw_values_spec. fold vs s0.
    unfold bind at 1, write_values. rewrite Hus, for_in_app.
    unfold bind at 1. rewrite Hrun. cbn [for_in]. unfold bind at 1.
    unfold context_setValues. rewrite Hm. reflexivity.
  - destruct written; [|done]. cbn [for_in] in Hrun. by injection Hrun as <-.
Qed.

End RunFacts.

Import RunFacts.

(* ===================================================================== *)
(** ** The loop on any slave table *)
(* ===================================================================== *)

(** X5: on any slave table in which unit ids 1, 2 and 3 are one-based
    slaves whose input-register banks are non-empty blocks with base
    address 0 (shared or not), an iteration of the loop succeeds, leaves
    the table as ready as it was, and afterwards each of the three
    slaves reads at function code 4, offset 0, count 10 the values the
    iteration drew. *)
Theorem tick_on_a_ready_table (c : ModbusServerContext) (s : State) :
  ready c (heap s) ->
  exists (vs : list Z) (s' : State),
    fst (draw_values s) = Ok vs
    /\ tick c s = (Ok tt, s')
    /\ ready c (heap s')
    /\ trace s' = trace s ++ [SetValues 1 4 0 vs; SetValues 2 4 0 vs;
                              SetValues 3 4 0 vs; Sleep (1 # 10)]
    /\ Forall (fun u => exists slave,
                   getitem c u = Ok slave
                   /\ slave_getValues slave 4 0 10 (heap s') = Ok vs)
         [1; 2; 3].
Proof.
  intros Hready.
  destruct (tick_ready c s Hready) as (vs & h' & Hdraw & _ & Htick & Hready' & Hall).
  exists vs. eexists. split; [exact Hdraw|]. split; [exact Htick|].
  cbn [heap trace]. by repeat split.
Qed.

Lemma tick_on_a_ready_table_witness :
  exists (vs : list Z) (s' : State),
    fst (draw_values {| heap := separate_heap; random := sample; trace := [] |}) = Ok vs
    /\ tick separate_context {| heap := separate_heap; random := sample; trace := [] |}
       = (Ok tt, s')
    /\ ready separate_context (heap s')
    /\ trace s' = [] ++ [SetValues 1 4 0 vs; SetValues 2 4 0 vs;
                         SetValues 3 4 0 vs; Sleep (1 # 10)]
    /\ Forall (fun u => exists slave,
                   getitem separate_context u = Ok slave
                   /\ slave_getValues slave 4 0 10 (heap s') = Ok vs)
         [1; 2; 3].
Proof.
  apply (tick_on_a_ready_table separate_context
           {| heap := separate_heap; random := sample; trace := [] |}).
  exact separate_ready.
Defined.

(** X6: on such a slave table the loop of [sync] goes on for ever
    without an exception: after any number of iterations it is still
    running, the table is still ready, the log has grown by four calls
    and the generator has advanced by ten draws per iteration. *)
Theorem sync_on_a_ready_table (c : ModbusServerContext) (s : State) (fuel : nat) :
  ready c (heap s) ->
  exists s' : State,
    sync c fuel s = Running s'
    /\ ready c (heap s')
    /\ length (trace s') = (length (trace s) + 4 * fuel)%nat
    /\ sleeps (trace s') = sleeps (trace s) ++ replicate fuel (1 # 10)%Q
    /\ pos (random s') = (pos (random s) + 10 * fuel)%nat.
Proof.
  intros Hready. destruct s as [h g tr].
  destruct (while_ready c fuel {| heap := h; random := g; trace := tr |} Hready)
    as (s' & Hrun & Hr & Hlen & Hsl & _ & Hpos).
  exists s'. by repeat split.
Qed.

Lemma sync_on_a_ready_table_witness :
  exists s' : State,
    sync separate_context 3 {| heap := separate_heap; random := sample; trace := [] |}
    = Running s'
    /\ ready separate_context (heap s')
    /\ length (trace s') = (0 + 4 * 3)%nat
    /\ sleeps (trace s') = [] ++ replicate 3 (1 # 10)%Q
    /\ pos (random s') = (0 + 10 * 3)%nat.
Proof.
  apply (sync_on_a_ready_table separate_context
           {| heap := separate_heap; random := sample; trace := [] |} 3).
  exact separate_ready.
Defined.

(** X7: if one of the unit ids 1, 2, 3 is missing from the slave table
    and the present ones are ready slaves, [sync] ends in its first
    iteration with an uncaught [NoSuchSlaveException]: it has drawn its
    ten values, has called [setValues] on exactly the ids before the
    first missing one, each of which now reads the values back, and
    never reaches the sleep; if the first id is the missing one the
    heap is as it was. *)
Theorem sync_dies_when_a_slave_is_missing
  (c : ModbusServerContext) (s : State) (fuel : nat) :
  Exists (fun u => getitem c u = Raise NoSuchSlaveException) (range2 1 4) ->
  Forall (fun u => match getitem c u with
                   | Ok slave => ready_slave (heap s) slave
                   | Raise _ => True
                   end) (range2 1 4) ->
  exists (vs written : list Z) (missing : Z) (rest : list Z) (s' : State),
    [1; 2; 3] = written ++ missing :: rest
    /\ getitem c missing = Raise NoSuchSlaveException
    /\ fst (draw_values s) = Ok vs
    /\ sync c (S fuel) s = Uncaught NoSuchSlaveException s'
    /\ pos (random s') = (pos (random s) + 10)%nat
    /\ sleeps (trace s') = sleeps (trace s)
    /\ trace s' = trace s ++ map (fun u => SetValues u 4 0 vs) written
    /\ Forall (fun u => exists slave,
                   getitem c u = Ok slave
                   /\ slave_getValues slave 4 0 10 (heap s') = Ok vs) written
    /\ match written with [] => heap s' = heap s | _ :: _ => True end.
Proof.
  intros Hmiss Hready.
  destruct (tick_until_missing c s Hmiss Hready)
    as (vs & written & missing & rest & h' & Hus & Hm & Hdraw & Htick & Hall & Hnil).
  destruct s as [h g tr]. cbn [heap random trace] in *.
  exists vs, written, missing, rest. eexists.
  split; [exact Hus|]. split; [exact Hm|]. split; [exact Hdraw|].
  split.
  { unfold sync, random_seed, seed.
    cbn [heap random trace while]. rewrite Htick. reflexivity. }
  cbn [heap random trace pos]. split; [reflexivity|].
  split; [by rewrite sleeps_app, sleeps_of_writes, app_nil_r|].
  by repeat split.
Qed.

Lemma sync_dies_when_a_slave_is_missing_witness :
  exists (vs written : list Z) (missing : Z) (rest : list Z) (s' : State),
    [1; 2; 3] = written ++ missing :: rest
    /\ getitem context_without_3 missing = Raise NoSuchSlaveException
    /\ fst (draw_values (start sample)) = Ok vs
    /\ sync context_without_3 1 (start sample) = Uncaught NoSuchSlaveException s'
    /\ pos (random s') = (pos (random (start sample)) + 10)%nat
    /\ sleeps (trace s') = sleeps (trace (start sample))
    /\ trace s' = trace (start sample) ++ map (fun u => SetValues u 4 0 vs) written
    /\ Forall (fun u => exists slave,
                   getitem context_without_3 u = Ok slave
                   /\ slave_getValues slave 4 0 10 (heap s') = Ok vs) written
    /\ match written with [] => heap s' = heap (start sample) | _ :: _ => True end.
Proof.
  apply (sync_dies_when_a_slave_is_missing context_without_3 (start sample) 0).
  - change (range2 1 4) with [1; 2; 3].
    apply Exists_cons_tl, Exists_cons_tl, Exists_cons_hd. reflexivity.
  - change (range2 1 4) with [1; 2; 3].
    assert (ready_slave heap0 the_slave) as Hready.
    { split; [reflexivity|]. exists (mkBlock 0 (replicate 10 0)).
      split; [reflexivity|]. split; [reflexivity|discriminate]. }
    constructor; [exact Hready|]. constructor; [exact Hready|].
    constructor; [exact I|]. constructor.
Defined.

(* ===================================================================== *)
(** ** Facts about serving read requests *)
(* ===================================================================== *)

Module ServerFacts.
Import Py Pymodbus Devsim PyFacts PymodbusFacts DevsimFacts StoreFacts.

(** What a read-registers request executes to on the shared block. *)
Lemma execute_on_block (fc a c : Z) (k : store_key) (vals : list Z) :
  decode fc = Ok k -> 0 <= a ->
  read_registers_execute fc a c the_slave {[ block := mkBlock 0 vals ]}
  = (Ok (if (1 <=? c) && (c <=? 0x7d)
         then if a + 1 + c <=? len vals
              then {| r_transaction_id := Defaults_TransactionId;
                      r_unit_id := Defaults_UnitId;
                      r_function_code := fc;
                      r_body := Registers (take (Z.to_nat c)
                                             (drop (Z.to_nat (a + 1)) vals)) |}
              else doException fc IllegalAddress
         else doException fc IllegalValue),
     {[ block := mkBlock 0 vals ]}).
Proof.
  intros Hk Ha. unfold read_registers_execute.
  destruct ((1 <=? c) && (c <=? 0x7d)) eqn:Hc; cbn [negb]; [|reflexivity].
  apply andb_true_iff in Hc as [Hc1 Hc2]. apply Z.leb_le in Hc1, Hc2.
  rewrite (slave_validate_ok the_slave fc a c _ block (mkBlock 0 vals))
    by (by eapply bank_the_slave_ok || apply lookup_singleton_eq).
  unfold block_validate; cbn [address values shifted the_slave
    new_ModbusSlaveContext zero_mode].
  replace (0 <=? a + 1) with true by (symmetry; apply Z.leb_le; lia).
  cbn [andb]. rewrite Z.add_0_l.
  destruct (Z.leb_spec (a + 1 + c) (len vals)) as [Hfit | Hout]; [|reflexivity].
  rewrite (slave_getValues_ok the_slave fc a c _ block (mkBlock 0 vals))
    by (by eapply bank_the_slave_ok || apply lookup_singleton_eq).
  unfold block_getValues; cbn [address values shifted the_slave
    new_ModbusSlaveContext zero_mode].
  rewrite Z.sub_0_r, getslice_inside by lia. reflexivity.
Qed.

(** The answer of the script's server to a read-registers request for a
    configured unit, on the shared block. *)
Lemma answer_on_block (fc tid u a c : Z) (k : store_key) (vals : list Z) :
  decode fc = Ok k -> u = 1 \/ u = 2 \/ u = 3 -> 0 <= a -> 1 <= c <= 0x7d ->
  handler_execute server
    {| transaction_id := tid; unit_id := u; function_code := fc;
       execute := read_registers_execute fc a c |}
    {[ block := mkBlock 0 vals ]}
  = (Some (if a + 1 + c <=? len vals
           then {| r_transaction_id := tid; r_unit_id := u;
                   r_function_code := fc;
                   r_body := Registers (take (Z.to_nat c)
                                          (drop (Z.to_nat (a + 1)) vals)) |}
           else {| r_transaction_id := tid; r_unit_id := u;
                   r_function_code := Z.lor fc 0x80;
                   r_body := ExceptionCode 2 |}),
     {[ block := mkBlock 0 vals ]}).
Proof.
  intros Hk Hu Ha Hc. unfold handler_execute, server, StartTcpServer.
  cbn [Pymodbus.context unit_id execute].
  rewrite getitem_context, decide_True by done.
  rewrite (execute_on_block fc a c k vals Hk Ha).
  replace ((1 <=? c) && (c <=? 0x7d)) with true
    by (symmetry; apply andb_true_iff; split; apply Z.leb_le; lia).
  by destruct (a + 1 + c <=? len vals).
Qed.

Lemma pack_H_bytes (r : Z) :
  0 <= r <= 0xFFFF -> pack_H r = Ok [r / 256; r mod 256].
Proof.
  intros Hr. unfold pack_H.
  replace ((0 <=? r) && (r <=? 0xFFFF)) with true
    by (symmetry; apply andb_true_iff; split; apply Z.leb_le; lia).
  rewrite Z.shiftr_div_pow2 by lia.
  change 0xFF with (Z.ones 8). rewrite Z.land_ones by lia. reflexivity.
Qed.

Lemma pack_registers_bytes (rs : list Z) :
  Forall (fun r => 0 <= r <= 0xFFFF) rs ->
  pack_registers rs = Ok (flat_map (fun r => [r / 256; r mod 256]) rs).
Proof.
  induction 1 as [|r rs Hr _ IH]; [reflexivity|].
  cbn [pack_registers flat_map]. by rewrite pack_H_bytes, IH.
Qed.

Lemma flat_map_pairs_length (rs : list Z) :
  len (flat_map (fun r => [r / 256; r mod 256]) rs) = 2 * len rs.
Proof.
  unfold len. induction rs as [|r rs IH]; [reflexivity|].
  cbn [flat_map app length]. lia.
Qed.

End ServerFacts.

Import ServerFacts.

(* ===================================================================== *)
(** ** What the server answers *)
(* ===================================================================== *)

(** X8: before the first iteration of the refresher, the server answers
    a read of input or holding registers for a configured unit with
    zeros when offset + count <= 9 and with exception code 2 otherwise:
    of the block's ten values only nine can be read, the one-based
    slaves leaving index 0 out of reach. *)
Theorem nine_registers_before_the_first_tick (tid u a c : Z) :
  u = 1 \/ u = 2 \/ u = 3 -> 0 <= a -> 1 <= c <= 125 ->
  handler_execute server (ReadInputRegistersRequest tid u a c) heap0
  = (Some (if a + c <=? 9
           then {| r_transaction_id := tid; r_unit_id := u; r_function_code := 4;
                   r_body := Registers (replicate (Z.to_nat c) 0) |}
           else {| r_transaction_id := tid; r_unit_id := u; r_function_code := 132;
                   r_body := ExceptionCode 2 |}),
     heap0)
  /\ handler_execute server (ReadHoldingRegistersRequest tid u a c) heap0
     = (Some (if a + c <=? 9
              then {| r_transaction_id := tid; r_unit_id := u; r_function_code := 3;
                      r_body := Registers (replicate (Z.to_nat c) 0) |}
              else {| r_transaction_id := tid; r_unit_id := u; r_function_code := 131;
                      r_body := ExceptionCode 2 |}),
        heap0).
Proof.
  intros Hu Ha Hc.
  assert (forall fc k, decode fc = Ok k ->
            handler_execute server
              {| transaction_id := tid; unit_id := u; function_code := fc;
                 execute := read_registers_execute fc a c |} heap0
            = (Some (if a + c <=? 9
                     then {| r_transaction_id := tid; r_unit_id := u;
                             r_function_code := fc;
                             r_body := Registers (replicate (Z.to_nat c) 0) |}
                     else {| r_transaction_id := tid; r_unit_id := u;
                             r_function_code := Z.lor fc 0x80;
                             r_body := ExceptionCode 2 |}),
               heap0)) as Hboth.
  { intros fc k Hk. unfold heap0.
    rewrite (answer_on_block fc tid u a c k (replicate 10 0) Hk Hu Ha) by lia.
    change (len (replicate 10 0)) with 10.
    destruct (Z.leb_spec (a + 1 + c) 10) as [Hfit | Hout];
      destruct (Z.leb_spec (a + c) 9); try lia; [|reflexivity].
    rewrite drop_replicate, take_replicate. do 5 f_equal. lia. }
  split; [exact (Hboth 4 key_i eq_refl) | exact (Hboth 3 key_h eq_refl)].
Qed.

Lemma nine_registers_before_the_first_tick_witness :
  handler_execute server (ReadInputRegistersRequest 7 2 0 10) heap0
  = (Some {| r_transaction_id := 7; r_unit_id := 2; r_function_code := 132;
             r_body := ExceptionCode 2 |},
     heap0)
  /\ handler_execute server (ReadHoldingRegistersRequest 7 2 0 10) heap0
     = (Some {| r_transaction_id := 7; r_unit_id := 2; r_function_code := 131;
                r_body := ExceptionCode 2 |},
        heap0).
Proof.
  apply (nine_registers_before_the_first_tick 7 2 0 10); lia.
Defined.

(** X9: after every iteration, the server answers a read of input or
    holding registers for a configured unit with the values the last
    iteration wrote, Modbus address a being the a-th of them, when
    offset + count <= 10, and with exception code 2 otherwise; serving
    the request leaves the heap as it is. *)
Theorem ten_registers_after_every_tick (g : Random) (n : nat) (tid u a c : Z) :
  u = 1 \/ u = 2 \/ u = 3 -> 0 <= a -> 1 <= c <= 125 ->
  exists (s : State) (tr : list Event) (vs : list Z),
    sync context (S n) (start g) = Running s
    /\ trace s = tr ++ [SetValues 1 4 0 vs; SetValues 2 4 0 vs;
                        SetValues 3 4 0 vs; Sleep (1 # 10)]
    /\ handler_execute server (ReadInputRegistersRequest tid u a c) (heap s)
       = (Some (if a + c <=? 10
                then {| r_transaction_id := tid; r_unit_id := u; r_function_code := 4;
                        r_body := Registers (take (Z.to_nat c)
                                               (drop (Z.to_nat a) vs)) |}
                else {| r_transaction_id := tid; r_unit_id := u;
                        r_function_code := 132; r_body := ExceptionCode 2 |}),
          heap s)
    /\ handler_execute server (ReadHoldingRegistersRequest tid u a c) (heap s)
       = (Some (if a + c <=? 10
                then {| r_transaction_id := tid; r_unit_id := u; r_function_code := 3;
                        r_body := Registers (take (Z.to_nat c)
                                               (drop (Z.to_nat a) vs)) |}
                else {| r_transaction_id := tid; r_unit_id := u;
                        r_function_code := 131; r_body := ExceptionCode 2 |}),
          heap s).
Proof.
  intros Hu Ha Hc.
  exists (state_after g (S n)), (trace_after g n), (drawn g n).
  split; [apply sync_state_after|]. split; [reflexivity|].
  assert (forall fc k, decode fc = Ok k ->
            handler_execute server
              {| transaction_id := tid; unit_id := u; function_code := fc;
                 execute := read_registers_execute fc a c |}
              (heap (state_after g (S n)))
            = (Some (if a + c <=? 10
                     then {| r_transaction_id := tid; r_unit_id := u;
                             r_function_code := fc;
                             r_body := Registers (take (Z.to_nat c)
                                                    (drop (Z.to_nat a) (drawn g n))) |}
                     else {| r_transaction_id := tid; r_unit_id := u;
                             r_function_code := Z.lor fc 0x80;
                             r_body := ExceptionCode 2 |}),
               heap (state_after g (S n)))) as Hboth.
  { intros fc k Hk. cbn [state_after heap values_after].
    rewrite (answer_on_block fc tid u a c k (0 :: drawn g n) Hk Hu Ha) by lia.
    change (len (0 :: drawn g n)) with 11.
    destruct (Z.leb_spec (a + 1 + c) 11) as [Hfit | Hout];
      destruct (Z.leb_spec (a + c) 10); try lia; [|reflexivity].
    replace (Z.to_nat (a + 1)) with (S (Z.to_nat a)) by lia. reflexivity. }
  split; [exact (Hboth 4 key_i eq_refl) | exact (Hboth 3 key_h eq_refl)].
Qed.

Lemma ten_registers_after_every_tick_witness :
  exists (s : State) (tr : list Event) (vs : list Z),
    sync context 2 (start sample) = Running s
    /\ trace s = tr ++ [SetValues 1 4 0 vs; SetValues 2 4 0 vs;
                        SetValues 3 4 0 vs; Sleep (1 # 10)]
    /\ handler_execute server (ReadInputRegistersRequest 7 3 4 2) (heap s)
       = (Some {| r_transaction_id := 7; r_unit_id := 3; r_function_code := 4;
                  r_body := Registers (take 2 (drop 4 vs)) |},
          heap s)
    /\ handler_execute server (ReadHoldingRegistersRequest 7 3 4 2) (heap s)
       = (Some {| r_transaction_id := 7; r_unit_id := 3; r_function_code := 3;
                  r_body := Registers (take 2 (drop 4 vs)) |},
          heap s).
Proof.
  apply (ten_registers_after_every_tick sample 1 7 3 4 2); lia.
Defined.

Module HandlerFacts.
Import Py Pymodbus Devsim PyFacts PymodbusFacts DevsimFacts StoreFacts RunFacts.







End HandlerFacts.

Import HandlerFacts.


(** X11: a read-registers response whose registers are 16-bit unsigned
    values, at most 127 of them, encodes without error to the byte count
    2 * n followed by the high and the low byte of each register. *)
Theorem registers_encode_big_endian (rs : list Z) :
  Forall (fun r => 0 <= r <= 0xFFFF) rs -> len rs <= 127 ->
  encode (Registers rs)
  = Ok (2 * len rs :: flat_map (fun r => [r / 256; r mod 256]) rs)
  /\ len (flat_map (fun r => [r / 256; r mod 256]) rs) = 2 * len rs.
Proof.
  intros Hrs Hlen. pose proof (len_nonneg rs) as Hn.
  split; [|apply flat_map_pairs_length].
  unfold encode, pack_B. rewrite pack_registers_bytes by done.
  replace ((0 <=? len rs * 2) && (len rs * 2 <=? 0xFF)) with true
    by (symmetry; apply andb_true_iff; split; apply Z.leb_le; lia).
  cbn [app]. do 2 f_equal. lia.
Qed.

Lemma registers_encode_big_endian_witness :
  encode (Registers [5; 130; 998]) = Ok [6; 0; 5; 0; 130; 3; 230]
  /\ len [0; 5; 0; 130; 3; 230] = 6.
Proof.
  apply (registers_encode_big_endian [5; 130; 998]).
  - repeat constructor; vm_compute; discriminate.
  - vm_compute; discriminate.
Defined.

(** X12: the ten values of any iteration of the refresher always encode:
    the response to a read of all ten input registers after the
    iteration is 21 payload bytes, the byte count 20 and two bytes per
    value, and no struct error can occur. *)
Theorem refresher_values_always_encode (g : Random) (n : nat) (tid : Z) :
  exists (s : State) (vs bytes : list Z),
    sync context (S n) (start g) = Running s
    /\ fst (handler_execute server (ReadInputRegistersRequest tid 1 0 10) (heap s))
       = Some {| r_transaction_id := tid; r_unit_id := 1; r_function_code := 4;
                 r_body := Registers vs |}
    /\ encode (Registers vs) = Ok (20 :: bytes)
    /\ length bytes = 20%nat
    /\ Forall (fun b => 0 <= b <= 255) bytes.
Proof.
  exists (state_after g (S n)), (drawn g n),
    (flat_map (fun r => [r / 256; r mod 256]) (drawn g n)).
  split; [apply sync_state_after|]. split; [reflexivity|].
  assert (Forall (fun r => 0 <= r <= 0xFFFF) (drawn g n)) as Hrange.
  { eapply Forall_impl; [apply drawn_range|]. cbn beta. lia. }
  split; [|split].
  - unfold encode, pack_B. rewrite pack_registers_bytes by done. reflexivity.
  - pose proof (flat_map_pairs_length (drawn g n)) as Hl.
    unfold len in Hl. rewrite drawn_length in Hl. lia.
  - clear Hrange. pose proof (drawn_range g n) as Hr.
    induction Hr as [|r rs Hr _ IH]; [constructor|].
    cbn [flat_map app]. constructor; [|constructor; [|exact IH]].
    + split; [apply Z.div_pos; lia | apply Z.div_le_upper_bound; lia].
    + pose proof (Z.mod_pos_bound r 256). lia.
Qed.
